(** * Bingsu shop back end: stock ledger, menu codes, orders

    A shallow embedding of the Mongoose models and Express handlers of the
    back end, with the store passed explicitly:

    - [Stock]       models/Stock.js, the schema with [isActive]
                    (src/unnamed/part_000)
    - [StockLegacy] models/Stock.js, the older schema without [isActive]
                    (src/unnamed/part_001)
    - [MenuCode]    models/MenuCode.js (src/backend/models/Order.js, from
                    line 181)
    - [Order]       models/Order.js (src/backend/models/Order.js)
    - [User]        models/User.js, which is not among the sources
    - [Routes]      routes/orders.js: POST /create and
                    PUT /admin/:orderId/status

    Conventions.  A collection is the list of its documents in natural
    order; [findOne] is the first match, a document is addressed by its
    position, and [doc.save()] writes the document back at that position.
    A JavaScript [Number] that the code only ever uses as an integer is a
    [Z]; a [Date] is a [Z] (milliseconds); [null] is [None].  A call
    returns the new collection together with an [Outcome]: the value it
    returned or the exception it threw.  One call reads the clock once.
    The store itself does not fail: a save is refused only by the schema's
    validators and unique indexes.  A string holds the UTF-8 bytes of its
    text. *)

From Stdlib Require Import ZArith String Ascii Bool Lia.
From stdpp Require Import base tactics option list strings sorting.

Local Open Scope Z_scope.

Definition Time := Z.
Definition ObjectId := Z.

(** Exceptions the modelled code throws, with the source's message in the
    comment. *)
Inductive Exn :=
| InsufficientStock (name : string) (available : Z)
    (* `Insufficient stock for ${name}. Available: ${stock.quantity}` *)
| InvalidCode            (* 'Invalid code' *)
| CodeHasExpired         (* 'Code has expired' *)
| UsageLimitReached      (* 'Code usage limit reached (maximum 5 orders per code)' *)
| ValidationError (paths : list string)   (* Mongoose schema validation *)
| DuplicateKey (index : string)           (* unique index violated *)
| NotAFunction (callee : string).         (* TypeError: callee is not a function *)

Inductive Outcome (A : Type) :=
| Returned (a : A)
| Thrown (e : Exn).
Arguments Returned {A} a.
Arguments Thrown {A} e.

(** [x || d] on numbers: [0] is falsy. *)
Definition num_or (x d : Z) : Z := if x =? 0 then d else x.

(** [String.prototype.toUpperCase] on ASCII text. *)
Definition upper_ascii (c : ascii) : ascii :=
  let n := nat_of_ascii c in
  if ((97 <=? n) && (n <=? 122))%nat then ascii_of_nat (n - 32) else c.

Fixpoint toUpperCase (s : string) : string :=
  match s with
  | EmptyString => EmptyString
  | String c s' => String (upper_ascii c) (toUpperCase s')
  end.

(** The two lengths of a text that the back end compares with a bound.
    [codeUnits] is [String.prototype.length], the number of UTF-16 code
    units, which Mongoose's [maxlength] reads: in UTF-8 a continuation
    byte [10xxxxxx] adds nothing, the first byte of a four-byte character
    [11110xxx] is a surrogate pair and adds two, any other byte adds one.
    [characters] is the length that [isLength] of validator.js compares,
    [str.length] less one for each surrogate pair: the number of
    characters. *)
Definition codeUnitsOf (c : ascii) : nat :=
  let n := nat_of_ascii c in
  if (n <? 128)%nat then 1%nat
  else if (n <? 192)%nat then 0%nat
  else if (n <? 240)%nat then 1%nat
  else 2%nat.

Fixpoint codeUnits (s : string) : nat :=
  match s with
  | EmptyString => 0%nat
  | String c s' => (codeUnitsOf c + codeUnits s')%nat
  end.

Fixpoint characters (s : string) : nat :=
  match s with
  | EmptyString => 0%nat
  | String c s' => ((if (0 <? codeUnitsOf c)%nat then 1 else 0) + characters s')%nat
  end.

(** ** models/Stock.js *)
Module Stock.

Inductive ItemType := flavor | topping.

#[global] Instance ItemType_eq_dec : EqDecision ItemType.
Proof. solve_decision. Defined.

Record Doc := mkDoc {
  itemType : ItemType;
  name : string;
  quantity : Z;          (* min: 0, default: 100 *)
  unit : string;         (* default: 'cups' *)
  reorderLevel : Z;      (* default: 20 *)
  isActive : bool;       (* default: true *)
  lastRestocked : Time
}.

Definition set_quantity (q : Z) (d : Doc) : Doc :=
  mkDoc (itemType d) (name d) q (unit d) (reorderLevel d) (isActive d)
        (lastRestocked d).

(** [this.findOne({ itemType, name })] *)
Definition findOne (ty : ItemType) (nm : string) (col : list Doc)
  : option (nat * Doc) :=
  list_find (λ d, itemType d = ty ∧ name d = nm) col.

(** [stock.save()] for the document at position [i]: the schema's
    [min: 0] validator on [quantity] runs first. *)
Definition save (i : nat) (d : Doc) (col : list Doc)
  : list Doc * Outcome Doc :=
  if quantity d <? 0 then (col, Thrown (ValidationError ["quantity"%string]))
  else (<[i:=d]> col, Returned d).

(** [reduceStock(itemType, name, amount = 1)], lines 41-57;
    [amount = None] is the omitted argument. *)
Definition reduceStock (ty : ItemType) (nm : string) (amount : option Z)
    (col : list Doc) : list Doc * Outcome (option Doc) :=
  let amount := default 1 amount in
  match findOne ty nm col with
  | None => (col, Returned None)                     (* console.warn; return null *)
  | Some (i, stock) =>
      if quantity stock <? amount
      then (col, Thrown (InsufficientStock nm (quantity stock)))
      else
        match save i (set_quantity (quantity stock - amount) stock) col with
        | (col', Returned d) => (col', Returned (Some d))
        | (col', Thrown e) => (col', Thrown e)
        end
  end.

(** [getLowStockItems], lines 103-107:
    [find({ $expr: { $lt: ['$quantity', '$reorderLevel'] } })] *)
Definition getLowStockItems (col : list Doc) : list Doc :=
  filter (λ d, quantity d < reorderLevel d) col.

(** [isAvailable(itemType, name)], lines 110-113: the value of
    [stock && stock.isActive && stock.quantity > 0], which is [null]
    ([None]) when no document matches. *)
Definition isAvailable (ty : ItemType) (nm : string) (col : list Doc)
    : option bool :=
  match findOne ty nm col with
  | None => None
  | Some (_, stock) => Some (isActive stock && (0 <? quantity stock))
  end.

(** Schema validation of a new document: the paths that fail, in schema
    order.  [name] is [required], which an empty string does not meet;
    [quantity] has [min: 0]; [itemType] is one of the enum's values by its
    type. *)
Definition invalidPaths (d : Doc) : list string :=
  (if decide (name d = "") then ["name"] else []) ++
  (if quantity d <? 0 then ["quantity"] else []).

(** [this.create(doc)], and [save()] of a new document: validation, then
    the insert. *)
Definition create (d : Doc) (col : list Doc) : list Doc * Outcome Doc :=
  match invalidPaths d with
  | [] => (col ++ [d], Returned d)
  | paths => (col, Thrown (ValidationError paths))
  end.

(** [addStock(itemType, name, amount)], lines 60-77.  A new document takes
    the schema defaults for [unit], [reorderLevel] and [isActive]. *)
Definition addStock (now : Time) (ty : ItemType) (nm : string) (amount : Z)
    (col : list Doc) : list Doc * Outcome Doc :=
  match findOne ty nm col with
  | None => create (mkDoc ty nm amount "cups" 20 true now) col
  | Some (i, stock) =>
      save i (mkDoc (itemType stock) (name stock) (quantity stock + amount)
                    (unit stock) (reorderLevel stock) (isActive stock) now)
           col
  end.

(** [setStock(itemType, name, quantity, reorderLevel, isActive)], lines
    80-100; [None] is an argument that is [undefined]. *)
Definition setStock (now : Time) (ty : ItemType) (nm : string) (q : Z)
    (level : option Z) (active : option bool) (col : list Doc)
    : list Doc * Outcome Doc :=
  match findOne ty nm col with
  | None =>
      create (mkDoc ty nm q "cups" (num_or (default 0 level) 20)
                    (default true active) now) col
  | Some (i, stock) =>
      save i (mkDoc (itemType stock) (name stock) q (unit stock)
                    (default (reorderLevel stock) level)
                    (default (isActive stock) active) now)
           col
  end.

(** The order of [.sort('name')]: strings compared character by
    character. *)
Definition byName (a b : Doc) : Prop := String.leb (name a) (name b) = true.

#[global] Instance byName_dec a b : Decision (byName a b).
Proof. unfold byName. apply _. Defined.

(** [getAvailableItems(itemType)], lines 116-122:
    [find({ itemType, isActive: true, quantity: { $gt: 0 } }).sort('name')] *)
Definition getAvailableItems (ty : ItemType) (col : list Doc) : list Doc :=
  merge_sort byName
    (filter (λ d, itemType d = ty ∧ isActive d = true ∧ 0 < quantity d) col).

End Stock.

(** ** models/Stock.js, the older schema (no [isActive]) *)
Module StockLegacy.

Record Doc := mkDoc {
  itemType : Stock.ItemType;
  name : string;
  quantity : Z;
  unit : string;
  reorderLevel : Z;
  lastRestocked : Time
}.

(** [getLowStockItems], lines 76-80:
    [find({ $expr: { $lte: ['$quantity', '$reorderLevel'] } })] *)
Definition getLowStockItems (col : list Doc) : list Doc :=
  filter (λ d, quantity d <= reorderLevel d) col.

End StockLegacy.

Inductive CupSize := cupS | cupM | cupL.   (* enum: ['S', 'M', 'L'] *)

(** ** models/MenuCode.js *)
Module MenuCode.

Record UsedBy := mkUsedBy { order : ObjectId; usedAt : Time }.

Record Doc := mkDoc {
  code : string;           (* unique, uppercase *)
  cupSize : CupSize;
  usageCount : Z;          (* default: 0 *)
  maxUsage : Z;            (* default: 5 *)
  createdBy : ObjectId;
  usedBy : list UsedBy;
  expiresAt : Time;        (* default: now + 24h *)
  createdAt : Time
}.

(** [this.findOne({ code })] *)
Definition findOne (c : string) (col : list Doc) : option (nat * Doc) :=
  list_find (λ m, code m = c) col.

(** [menuCode.usageCount += 1; menuCode.usedBy.push({ order, usedAt })] *)
Definition use (orderId : ObjectId) (now : Time) (m : Doc) : Doc :=
  mkDoc (code m) (cupSize m) (usageCount m + 1) (maxUsage m) (createdBy m)
        (usedBy m ++ [mkUsedBy orderId now]) (expiresAt m) (createdAt m).

(** [validateAndUse(code, orderId)], lines 266-291 *)
Definition validateAndUse (now : Time) (c : string) (orderId : ObjectId)
    (col : list Doc) : list Doc * Outcome Doc :=
  match findOne (toUpperCase c) col with
  | None => (col, Thrown InvalidCode)
  | Some (i, menuCode) =>
      if expiresAt menuCode <? now then (col, Thrown CodeHasExpired)
      else if maxUsage menuCode <=? usageCount menuCode
      then (col, Thrown UsageLimitReached)
      else
        let menuCode' := use orderId now menuCode in
        (<[i:=menuCode']> col, Returned menuCode')
  end.

(** [canBeUsed()], lines 294-307 *)
Inductive Usable :=
| NotValid (reason : string)
| Valid (remainingUses : Z).

Definition canBeUsed (now : Time) (m : Doc) : Usable :=
  if expiresAt m <? now then NotValid "Code has expired"
  else if maxUsage m <=? usageCount m then NotValid "Code usage limit reached"
  else Valid (maxUsage m - usageCount m).

(** The filter of [cleanupExpired]:
    [{ usageCount: 0, expiresAt: { $lt: new Date() } }] *)
Definition unusedExpired (now : Time) (m : Doc) : Prop :=
  usageCount m = 0 ∧ expiresAt m < now.

#[global] Instance unusedExpired_dec now m : Decision (unusedExpired now m).
Proof. unfold unusedExpired. apply _. Defined.

(** [cleanupExpired()], lines 310-316: [deleteMany], returning
    [result.deletedCount] *)
Definition cleanupExpired (now : Time) (col : list Doc) : list Doc * nat :=
  (filter (λ m, ¬ unusedExpired now m) col,
   length (filter (unusedExpired now) col)).

(** [const chars = 'ABCDEFGHIJKLMNOPQRSTUVWXYZ0123456789'] *)
Definition chars : string := "ABCDEFGHIJKLMNOPQRSTUVWXYZ0123456789".

(** [code += chars[n]]: an index past the end reads [undefined], which is
    appended as the text "undefined". *)
Definition append_char (code : string) (n : nat) : string :=
  match String.get n chars with
  | Some c => (code ++ String c "")%string
  | None => (code ++ "undefined")%string
  end.

(** The candidate of one attempt: five characters.  [rand k] is the k-th
    value of [Math.floor(Math.random() * chars.length)] in the call. *)
Definition candidate (rand : nat → nat) (attempt : nat) : string :=
  foldl append_char ""%string
        (map (λ i, rand (5 * attempt + i)%nat) [0; 1; 2; 3; 4]%nat).

(** [generateCode()], lines 229-250: the loop
    [while (attempts < maxAttempts)] with [left = maxAttempts - attempts];
    [Exhausted] is the [throw] after it. *)
Inductive Generated :=
| Code (c : string)
| Exhausted.   (* 'Unable to generate unique code after maximum attempts' *)

Fixpoint generateLoop (rand : nat → nat) (col : list Doc)
    (attempts left : nat) : Generated :=
  match left with
  | O => Exhausted
  | S left' =>
      let code := candidate rand attempts in
      match findOne code col with
      | None => Code code
      | Some _ => generateLoop rand col (S attempts) left'
      end
  end.

Definition maxAttempts : nat := 100.

Definition generateCode (rand : nat → nat) (col : list Doc) : Generated :=
  generateLoop rand col 0 maxAttempts.

(** [menuCode.save()] of a new document: the insert under the unique index
    on [code]. *)
Definition insert (d : Doc) (col : list Doc) : list Doc * Outcome Doc :=
  if decide (Exists (λ m, code m = code d) col)
  then (col, Thrown (DuplicateKey "code"))
  else (col ++ [d], Returned d).

(** [createCode(cupSize, createdBy)], lines 253-263, with the schema
    defaults; the schema upper-cases [code]. *)
Inductive Issued :=
| IssuedDoc (d : Doc)
| NotGenerated               (* the throw of [generateCode] *)
| NotSaved (e : Exn).

Definition createCode (rand : nat → nat) (now : Time) (size : CupSize)
    (by_ : ObjectId) (col : list Doc) : list Doc * Issued :=
  match generateCode rand col with
  | Exhausted => (col, NotGenerated)
  | Code c =>
      match insert (mkDoc (toUpperCase c) size 0 5 by_ []
                          (now + 24 * 60 * 60 * 1000) now) col with
      | (col', Returned d) => (col', IssuedDoc d)
      | (col', Thrown e) => (col', NotSaved e)
      end
  end.

End MenuCode.

(** ** models/Order.js *)
Module Order.

Inductive Status := Pending | Preparing | Ready | Completed | Cancelled.
Inductive PaymentStatus := Unpaid | Paid | Refunded.

(** [sPoints] and [tPoints] are the [points] of the flavor and of a
    topping. *)
Record ShavedIce := mkShavedIce { flavor : string; sPoints : Z }.
Record Topping := mkTopping { name : string; tPoints : Z }.

Record Pricing := mkPricing {
  basePrice : Z;           (* default: 60 *)
  sizePrice : Z;           (* default: 0 *)
  toppingsPrice : Z;       (* default: 0 *)
  total : option Z         (* required; undefined until computed *)
}.

Record Timestamps := mkTimestamps {
  ordered : Time;          (* default: Date.now *)
  prepared : option Time;
  ready : option Time;
  completed : option Time
}.

Record Doc := mkDoc {
  _id : ObjectId;
  orderId : option string;
  customerId : option ObjectId;
  menuCode : string;
  customerCode : string;
  cupSize : CupSize;
  shavedIce : ShavedIce;
  toppings : list Topping;
  pricing : Pricing;
  status : Status;               (* default: 'Pending' *)
  paymentStatus : PaymentStatus; (* default: 'Unpaid' *)
  specialInstructions : string;  (* maxlength: 200, default: '' *)
  timestamps : Timestamps;
  isFreeDrink : bool             (* default: false *)
}.

Definition flavorEnum : list string :=
  ["Strawberry"; "Thai Tea"; "Matcha"; "Milk"; "Green Tea"]%string.
Definition toppingEnum : list string :=
  ["Apple"; "Cherry"; "Blueberry"; "Raspberry"; "Strawberry"; "Banana";
   "Mango"]%string.

Definition set_pricing (p : Pricing) (o : Doc) : Doc :=
  mkDoc (_id o) (orderId o) (customerId o) (menuCode o) (customerCode o)
        (cupSize o) (shavedIce o) (toppings o) p (status o)
        (paymentStatus o) (specialInstructions o) (timestamps o)
        (isFreeDrink o).

Definition set_isFreeDrink (b : bool) (o : Doc) : Doc :=
  mkDoc (_id o) (orderId o) (customerId o) (menuCode o) (customerCode o)
        (cupSize o) (shavedIce o) (toppings o) (pricing o) (status o)
        (paymentStatus o) (specialInstructions o) (timestamps o) b.

Definition set_orderId (s : string) (o : Doc) : Doc :=
  mkDoc (_id o) (Some s) (customerId o) (menuCode o) (customerCode o)
        (cupSize o) (shavedIce o) (toppings o) (pricing o) (status o)
        (paymentStatus o) (specialInstructions o) (timestamps o)
        (isFreeDrink o).

Definition set_status (s : Status) (ts : Timestamps) (o : Doc) : Doc :=
  mkDoc (_id o) (orderId o) (customerId o) (menuCode o) (customerCode o)
        (cupSize o) (shavedIce o) (toppings o) (pricing o) s
        (paymentStatus o) (specialInstructions o) ts (isFreeDrink o).

(** [const sizePrices = { S: 0, M: 10, L: 20 }] *)
Definition sizePrices (c : CupSize) : Z :=
  match c with cupS => 0 | cupM => 10 | cupL => 20 end.

(** [calculateTotal()], lines 121-150: the document with its [pricing]
    rewritten, and the returned [this.pricing.total]. *)
Definition calculateTotal (o : Doc) : Doc * Z :=
  let total0 := num_or (basePrice (pricing o)) 60 in
  let sizePrice := num_or (sizePrices (cupSize o)) 0 in
  let total1 := total0 + sizePrice in
  let toppingsPrice := num_or (Z.of_nat (length (toppings o))) 0 * 10 in
  let total2 := total1 + toppingsPrice in
  let final := if isFreeDrink o then 0 else total2 in
  (set_pricing (mkPricing (basePrice (pricing o)) sizePrice toppingsPrice
                          (Some final)) o,
   final).

(** [updateStatus(newStatus)], lines 153-173, up to its [this.save()]: the
    status is assigned, then the timestamp named by
    [{ Preparing: 'prepared', Ready: 'ready', Completed: 'completed' }]. *)
Definition stamp (now : Time) (newStatus : Status) (ts : Timestamps)
  : Timestamps :=
  match newStatus with
  | Preparing => mkTimestamps (ordered ts) (Some now) (ready ts) (completed ts)
  | Ready => mkTimestamps (ordered ts) (prepared ts) (Some now) (completed ts)
  | Completed => mkTimestamps (ordered ts) (prepared ts) (ready ts) (Some now)
  | Pending | Cancelled => ts
  end.

Definition assignStatus (now : Time) (newStatus : Status) (o : Doc) : Doc :=
  set_status newStatus (stamp now newStatus (timestamps o)) o.

(** Schema validation of a document, new or loaded: the paths that fail,
    in schema order (one entry [toppings] stands for any failing
    [toppings.i.name]). *)
Definition invalidPaths (o : Doc) : list string :=
  (if decide (menuCode o = "") then ["menuCode"] else []) ++
  (if decide (customerCode o = "") then ["customerCode"] else []) ++
  (if decide (flavor (shavedIce o) ∈ flavorEnum) then []
   else ["shavedIce.flavor"]) ++
  (if decide (Forall (λ t, name t ∈ toppingEnum) (toppings o)) then []
   else ["toppings"]) ++
  (if total (pricing o) is Some _ then [] else ["pricing.total"]) ++
  (if (200 <? codeUnits (specialInstructions o))%nat
   then ["specialInstructions"] else []).

(** The [pre('save')] hook, lines 103-118: an [orderId] is generated when
    [!this.orderId], that is when it is absent or the empty string;
    [generated] is [`ORD${timestamp}${random}`]. *)
Definition preSave (generated : string) (o : Doc) : Doc :=
  match orderId o with
  | Some s => if decide (s = ""%string) then set_orderId generated o else o
  | None => set_orderId generated o
  end.

(** [order.save()] of a new document: validation, the hook, then the
    insert under the unique indexes on [orderId] (sparse) and
    [customerCode]. *)
Definition save (generated : string) (o : Doc) (col : list Doc)
    : list Doc * Outcome Doc :=
  match invalidPaths o with
  | [] =>
      let o' := preSave generated o in
      if decide (Exists (λ d, orderId d = orderId o') col)
      then (col, Thrown (DuplicateKey "orderId"))
      else if decide (Exists (λ d, customerCode d = customerCode o') col)
      then (col, Thrown (DuplicateKey "customerCode"))
      else (col ++ [o'], Returned o')
  | paths => (col, Thrown (ValidationError paths))
  end.

(** [this.save()] of a loaded document at position [i].  Mongoose
    validates the whole document again, not only the paths that were
    assigned, then runs the [pre('save')] hook and writes the document
    back.  An [orderId] that the hook has changed is written under the
    unique index. *)
Definition update (generated : string) (i : nat) (o : Doc) (col : list Doc)
    : list Doc * Outcome Doc :=
  match invalidPaths o with
  | [] =>
      let o' := preSave generated o in
      if decide (orderId o' ≠ orderId o
                 ∧ Exists (λ d, orderId d = orderId o') col)
      then (col, Thrown (DuplicateKey "orderId"))
      else (<[i:=o']> col, Returned o')
  | paths => (col, Thrown (ValidationError paths))
  end.

(** [updateStatus(newStatus)]: the assignments, then [return this.save()]. *)
Definition updateStatus (now : Time) (generated : string) (newStatus : Status)
    (i : nat) (o : Doc) (col : list Doc) : list Doc * Outcome Doc :=
  update generated i (assignStatus now newStatus o) col.

(** [Order.findById(id)] *)
Definition findById (id : ObjectId) (col : list Doc) : option (nat * Doc) :=
  list_find (λ d, _id d = id) col.

End Order.

(** ** models/User.js: the fields the order route touches *)
Module User.

Record LoyaltyCard := mkCard { stamps : Z; totalFreeDrinks : Z }.

Record Doc := mkDoc {
  _id : ObjectId;
  loyaltyPoints : Z;
  loyaltyCard : LoyaltyCard;
  orderHistory : list ObjectId
}.

Definition findById (id : ObjectId) (col : list Doc) : option (nat * Doc) :=
  list_find (λ d, _id d = id) col.

(** [user.orderHistory.push(id); user.loyaltyPoints += pts] *)
Definition record (id : ObjectId) (pts : Z) (u : Doc) : Doc :=
  mkDoc (_id u) (loyaltyPoints u + pts) (loyaltyCard u) (orderHistory u ++ [id]).

(** Modelled from the spec: [addLoyaltyStamp()] is a method of
    models/User.js, which is not among the sources.  Section 4.4: the
    stamp count goes up by one; when it reaches the threshold (10) it is
    reset to 0, the free-drink total goes up by one, and the caller is
    told that a free order was earned. *)
Definition addLoyaltyStamp (u : Doc) : Doc * bool :=
  let s := stamps (loyaltyCard u) + 1 in
  if 10 <=? s
  then (mkDoc (_id u) (loyaltyPoints u)
              (mkCard 0 (totalFreeDrinks (loyaltyCard u) + 1))
              (orderHistory u), true)
  else (mkDoc (_id u) (loyaltyPoints u)
              (mkCard s (totalFreeDrinks (loyaltyCard u)))
              (orderHistory u), false).

End User.

(** ** routes/orders.js *)
Module Routes.

(** The store: one collection per model. *)
Record Db := mkDb {
  stocks : list Stock.Doc;
  menuCodes : list MenuCode.Doc;
  orders : list Order.Doc;
  users : list User.Doc
}.

(** [req.body] of POST /create.  The handler destructures [menuCode],
    [shavedIce], [toppings] and [specialInstructions]; [cupSize] stands for
    a field a client may add, which the handler never reads. *)
Record Body := mkBody {
  menuCode : string;
  shavedIce : Order.ShavedIce;
  toppings : list Order.Topping;
  specialInstructions : option string;
  cupSize : option CupSize
}.

(** [user] is [req.user?._id], set by [optionalAuth]. *)
Record Request := mkRequest { user : option ObjectId; body : Body }.

(** What one request draws from outside the store: the clock, the
    [ObjectId] of the new order, [Math.random().toString(36).substr(2, 5)]
    for the customer code, and the [`ORD${timestamp}${random}`] of the
    pre-save hook. *)
Record Env := mkEnv {
  now : Time;
  newObjectId : ObjectId;
  random36 : string;
  generatedOrderId : string
}.

Inductive Response :=
| BadRequest (message : string)                      (* 400 *)
| NotFound (message : string)                        (* 404 *)
| ServerError (message : string) (error : Exn)       (* 500 *)
| Created (message : string) (order : Order.Doc) (customerCode : string)
          (earnedFreeDrink : bool)                   (* 201 *)
| Ok (message : string) (order : Order.Doc).         (* 200 *)

(** The express-validator chain of POST /create, lines 12-15 ([shavedIce]
    is an object and [toppings] an array by their types). *)
Definition validBody (b : Body) : bool :=
  negb (String.eqb (menuCode b) "") &&
  (characters (menuCode b) =? 5)%nat &&
  match specialInstructions b with
  | None => true
  | Some s => (characters s <=? 200)%nat
  end.

(** [new Order({ ... })] of the handler, with the schema defaults. *)
Definition newOrder (env : Env) (req : Request) (codeDoc : MenuCode.Doc)
    (customerCode : string) : Order.Doc :=
  Order.mkDoc (newObjectId env) None (user req)
    (toUpperCase (menuCode (body req))) customerCode
    (MenuCode.cupSize codeDoc)
    (shavedIce (body req)) (toppings (body req))
    (Order.mkPricing 60 0 0 None)
    Order.Pending Order.Paid
    (default ""%string (specialInstructions (body req)))
    (Order.mkTimestamps (now env) None None None)
    false.

(** [MenuCode.expireCode] as the sources have it: the route calls it, and
    models/MenuCode.js defines no static of that name, so the call is a
    TypeError and the collection is as before. *)
Definition expireCode_missing (c : string) (col : list MenuCode.Doc)
    : list MenuCode.Doc * Outcome () :=
  (col, Thrown (NotAFunction "MenuCode.expireCode")).

Section Handlers.

(** The two callees of the handler that the sources do not define. *)
Variable addLoyaltyStamp : User.Doc → User.Doc * bool.
Variable expireCode :
  string → list MenuCode.Doc → list MenuCode.Doc * Outcome ().

(** The [if (req.user) { ... }] block: the user collection, the order and
    [earnedFreeDrink] after it. *)
Definition loyalty (uid : option ObjectId) (order : Order.Doc)
    (col : list User.Doc) : list User.Doc * Order.Doc * bool :=
  match uid with
  | None => (col, order, false)
  | Some id =>
      match User.findById id col with
      | None => (col, order, false)
      | Some (i, u) =>
          let '(u1, earned) := addLoyaltyStamp u in
          let order' :=
            if earned
            then fst (Order.calculateTotal (Order.set_isFreeDrink true order))
            else order in
          let pts := default 0 (Order.total (Order.pricing order')) / 10 in
          (<[i:=User.record (Order._id order') pts u1]> col, order', earned)
      end
  end.

(** POST /api/orders/create, lines 11-146 *)
Definition createOrder (env : Env) (req : Request) (db : Db) : Db * Response :=
  if negb (validBody (body req)) then (db, BadRequest "Validation failed")
  else
    match MenuCode.findOne (toUpperCase (menuCode (body req))) (menuCodes db) with
    | None => (db, BadRequest "Invalid menu code")
    | Some (_, codeDoc) =>
        if MenuCode.expiresAt codeDoc <? now env
        then (db, BadRequest "Menu code has expired")
        else
          let customerCode := ("#" ++ toUpperCase (random36 env))%string in
          let order0 := newOrder env req codeDoc customerCode in
          let order1 := fst (Order.calculateTotal order0) in
          let '(users', order2, earned) := loyalty (user req) order1 (users db) in
          match Order.save (generatedOrderId env) order2 (orders db) with
          | (orders', Thrown e) =>
              (mkDb (stocks db) (menuCodes db) orders' users',
               ServerError "Failed to save order" e)
          | (orders', Returned saved) =>
              (* try { await MenuCode.expireCode(menuCode) } catch { log } *)
              let menuCodes' := fst (expireCode (menuCode (body req)) (menuCodes db)) in
              (mkDb (stocks db) menuCodes' orders' users',
               Created "Order created successfully" saved customerCode earned)
          end
    end.

End Handlers.

(** PUT /api/orders/admin/:orderId/status, lines 231-259.  The validator
    [body('status').isIn([...])] is declared and its result never read;
    [Order.Status] holds the five values it lists.  [generated] is the
    [`ORD${timestamp}${random}`] of the pre-save hook. *)
Definition putStatus (now : Time) (generated : string) (id : ObjectId)
    (status : Order.Status) (db : Db) : Db * Response :=
  match Order.findById id (orders db) with
  | None => (db, NotFound "Order not found")
  | Some (i, order) =>
      match Order.updateStatus now generated status i order (orders db) with
      | (orders', Returned o) =>
          (mkDb (stocks db) (menuCodes db) orders' (users db),
           Ok "Order status updated" o)
      | (orders', Thrown e) =>
          (mkDb (stocks db) (menuCodes db) orders' (users db),
           ServerError "Failed to update order status" e)
      end
  end.

End Routes.

#[global] Instance CupSize_eq_dec : EqDecision CupSize.
Proof. solve_decision. Defined.

(** ** routes/stock.js (src/backend/routes/stock.js) *)
Module StockRoutes.

(** The answers of the handlers below.  The numbers that the messages of
    [Restocked] and [Initialized] interpolate are their fields. *)
Inductive Response :=
| NotFound (message : string)                        (* 404 *)
| BadRequest (message : string)                      (* 400 *)
| ServerError (message : string) (error : Exn)       (* 500 *)
| Adjusted (message : string) (stock : Stock.Doc)
| Restocked (stock : Stock.Doc) (oldQuantity newQuantity added : Z)
| Initialized (created restocked : nat) (totalAdded : Z).

(** [Stock.findById(req.params.id)]: the id of a document is its position
    in the collection. *)
Definition findById (id : nat) (col : list Stock.Doc) : option Stock.Doc :=
  col !! id.

(** PUT /api/stock/:id/adjust, lines 55-85.  The validator
    [body('adjustment').isInt()] is declared and its result never read; an
    adjustment is an integer here. *)
Definition adjust (now : Time) (id : nat) (adjustment : Z)
    (col : list Stock.Doc) : list Stock.Doc * Response :=
  match findById id col with
  | None => (col, NotFound "Stock item not found")
  | Some stock =>
      let q := Stock.quantity stock + adjustment in
      if q <? 0 then (col, BadRequest "Stock cannot be negative")
      else
        let stock' :=
          Stock.mkDoc (Stock.itemType stock) (Stock.name stock) q
            (Stock.unit stock) (Stock.reorderLevel stock)
            (Stock.isActive stock)
            (if 0 <? adjustment then now else Stock.lastRestocked stock) in
        match Stock.save id stock' col with
        | (col', Returned d) =>
            (col',
             Adjusted ("Stock "
                       ++ (if (0 <? adjustment)%Z then "increased"
                           else "decreased")
                       ++ " successfully")%string d)
        | (col', Thrown e) => (col', ServerError "Failed to adjust stock" e)
        end
  end.

(** PUT /api/stock/:id/restock, lines 234-258 *)
Definition restock (now : Time) (id : nat) (col : list Stock.Doc)
    : list Stock.Doc * Response :=
  match findById id col with
  | None => (col, NotFound "Stock item not found")
  | Some stock =>
      let oldQuantity := Stock.quantity stock in
      let amountToAdd := Stock.reorderLevel stock in
      let stock' :=
        Stock.mkDoc (Stock.itemType stock) (Stock.name stock)
          (oldQuantity + amountToAdd) (Stock.unit stock)
          (Stock.reorderLevel stock) (Stock.isActive stock) now in
      match Stock.save id stock' col with
      | (col', Returned d) =>
          (col', Restocked d oldQuantity (Stock.quantity d) amountToAdd)
      | (col', Thrown e) => (col', ServerError "Failed to restock" e)
      end
  end.

(** [defaultStock] of POST /api/stock/initialize, lines 182-194:
    item type, name, quantity, reorder level. *)
Definition defaultStock : list (Stock.ItemType * string * Z * Z) :=
  [ (Stock.flavor, "Strawberry", 50, 20);
    (Stock.flavor, "Thai Tea", 50, 20);
    (Stock.flavor, "Matcha", 50, 20);
    (Stock.topping, "Apple", 50, 20);
    (Stock.topping, "Cherry", 50, 20);
    (Stock.topping, "Blueberry", 50, 20);
    (Stock.topping, "Raspberry", 50, 20);
    (Stock.topping, "Strawberry", 50, 20) ]%string.

Record Tally := mkTally { created : nat; restocked : nat; totalAdded : Z }.

(** The [for (const item of defaultStock)] loop, lines 200-220. *)
Fixpoint initializeLoop (now : Time)
    (items : list (Stock.ItemType * string * Z * Z))
    (col : list Stock.Doc) (t : Tally) : list Stock.Doc * Outcome Tally :=
  match items with
  | [] => (col, Returned t)
  | (ty, nm, q, level) :: rest =>
      match Stock.findOne ty nm col with
      | None =>
          match Stock.create (Stock.mkDoc ty nm q "cups" level true now) col with
          | (col', Returned _) =>
              initializeLoop now rest col'
                (mkTally (S (created t)) (restocked t) (totalAdded t))
          | (col', Thrown e) => (col', Thrown e)
          end
      | Some (i, existing) =>
          if Stock.quantity existing <=? Stock.reorderLevel existing
          then
            let amountToAdd := Stock.reorderLevel existing in
            match Stock.save i
                    (Stock.mkDoc (Stock.itemType existing) (Stock.name existing)
                       (Stock.quantity existing + amountToAdd)
                       (Stock.unit existing) (Stock.reorderLevel existing)
                       (Stock.isActive existing) now) col with
            | (col', Returned _) =>
                initializeLoop now rest col'
                  (mkTally (created t) (S (restocked t))
                           (totalAdded t + amountToAdd))
            | (col', Thrown e) => (col', Thrown e)
            end
          else initializeLoop now rest col t
      end
  end.

(** POST /api/stock/initialize, lines 180-231 *)
Definition initialize (now : Time) (col : list Stock.Doc)
    : list Stock.Doc * Response :=
  match initializeLoop now defaultStock col (mkTally 0 0 0) with
  | (col', Returned t) =>
      (col', Initialized (created t) (restocked t) (totalAdded t))
  | (col', Thrown e) => (col', ServerError "Failed to initialize stock" e)
  end.

End StockRoutes.

(** ** routes/menuCodes.js (src/backend/routes/menuCodes.js) *)
Module MenuCodeRoutes.

(** The answers of POST /api/menu-codes/validate.  The message of an
    accepted code interpolates [remainingUses]. *)
Inductive Validation :=
| Rejected (message : string)                            (* 400, valid: false *)
| Accepted (cupSize : CupSize) (remainingUses maxUsage : Z).   (* valid: true *)

(** POST /api/menu-codes/validate, lines 44-92.  The validator chain on
    [code] is declared and its result never read. *)
Definition validate (now : Time) (code : string) (col : list MenuCode.Doc)
    : Validation :=
  match MenuCode.findOne (toUpperCase code) col with
  | None => Rejected "Invalid code"
  | Some (_, menuCode) =>
      match MenuCode.canBeUsed now menuCode with
      | MenuCode.NotValid reason => Rejected reason
      | MenuCode.Valid remainingUses =>
          Accepted (MenuCode.cupSize menuCode) remainingUses
                   (MenuCode.maxUsage menuCode)
      end
  end.

(** One [$group] of [byCupSize]: [_id], [count], [totalUsage]; there is no
    group for a size no code has. *)
Definition group (size : CupSize) (col : list MenuCode.Doc)
    : option (CupSize * nat * Z) :=
  let g := filter (λ m, MenuCode.cupSize m = size) col in
  if g is [] then None
  else Some (size, length g, foldr Z.add 0 (MenuCode.usageCount <$> g)).

Record Stats := mkStats {
  total : nat;
  partiallyUsed : nat;
  fullyUsed : nat;
  unused : nat;
  expired : nat;
  byCupSize : list (CupSize * nat * Z)
}.

(** GET /api/menu-codes/admin/stats, lines 156-214: the [$facet] pipeline
    and the [?.count || 0] readings.  The groups of [byCupSize] are listed
    in the order S, M, L. *)
Definition stats (now : Time) (col : list MenuCode.Doc) : Stats :=
  mkStats
    (length col)
    (length (filter (λ m, 1 ≤ MenuCode.usageCount m ∧ MenuCode.usageCount m < 5) col))
    (length (filter (λ m, 5 ≤ MenuCode.usageCount m) col))
    (length (filter (λ m, MenuCode.usageCount m = 0) col))
    (length (filter (λ m, MenuCode.usageCount m < 5 ∧ MenuCode.expiresAt m < now) col))
    (omap (λ size, group size col) [cupS; cupM; cupL]).

End MenuCodeRoutes.

(** ** pages/menu/index.tsx (src/src/pages/menu/index.tsx) *)
Module MenuPage.

Record MenuItem := mkItem {
  name : string;
  score : Z;
  description : string;
  image : string;
  color : option string;
  textColor : option string;
  available : option bool;
  stock : option Z
}.

(** [!item.available]: [undefined] and [false] are falsy. *)
Definition unavailable (item : MenuItem) : bool :=
  negb (default false (available item)).

(** [toggleTopping(topping)], lines 148-167: the next [selectedToppings]
    and the error message set, if any. *)
Definition toggleTopping (topping : MenuItem) (prev : list MenuItem)
    : list MenuItem * option string :=
  if unavailable topping
  then (prev, Some ("Sorry, " ++ name topping ++ " is out of stock")%string)
  else
    match list_find (λ t, name t = name topping) prev with
    | Some _ => (filter (λ t, name t ≠ name topping) prev, None)
    | None =>
        if (3 <=? length prev)%nat
        then (prev, Some "Maximum 3 toppings allowed"%string)
        else (prev ++ [topping], None)
    end.

(** [const sizePrice = { S: 0, M: 10, L: 20 }] read at a string key. *)
Definition sizePrice (cupSize : string) : option Z :=
  if decide (cupSize = "S") then Some 0
  else if decide (cupSize = "M") then Some 10
  else if decide (cupSize = "L") then Some 20
  else None.

(** [calculateTotal()], lines 179-185 *)
Definition calculateTotal (cupSize : string) (selectedToppings : list MenuItem)
    : Z :=
  60 + num_or (default 0 (sizePrice cupSize)) 0
     + Z.of_nat (length selectedToppings) * 10.

(** The text of a cup size in a JSON answer. *)
Definition cupSizeText (c : CupSize) : string :=
  match c with cupS => "S" | cupM => "M" | cupL => "L" end.

(** [orderData] of [handleCreateOrder], lines 214-226. *)
Definition orderData (menuCode : string) (selectedFlavor : MenuItem)
    (selectedToppings : list MenuItem) (specialInstructions : string)
    : Routes.Body :=
  Routes.mkBody (toUpperCase menuCode)
    (Order.mkShavedIce (name selectedFlavor) (score selectedFlavor))
    (map (λ t, Order.mkTopping (name t) (score t)) selectedToppings)
    (Some specialInstructions) None.

End MenuPage.

(** ** Drivers and the specification's own wording *)

(** A sequence of redemptions of one code: [validateAndUse] called once
    per entry (clock reading, order), each call on the collection the
    previous one left. *)
Fixpoint redemptions (c : string) (calls : list (Time * ObjectId))
    (col : list MenuCode.Doc) : list MenuCode.Doc * list (Outcome MenuCode.Doc) :=
  match calls with
  | [] => (col, [])
  | (t, oid) :: rest =>
      let '(col1, r) := MenuCode.validateAndUse t c oid col in
      let '(col2, rs) := redemptions c rest col1 in
      (col2, r :: rs)
  end.

(** [n] decrements of one unit of the same item, one after the other;
    the outcomes in order. *)
Fixpoint decrements (ty : Stock.ItemType) (nm : string) (n : nat)
    (col : list Stock.Doc) : list Stock.Doc * list (Outcome (option Stock.Doc)) :=
  match n with
  | O => (col, [])
  | S n' =>
      let '(col1, r) := Stock.reduceStock ty nm None col in
      let '(col2, rs) := decrements ty nm n' col1 in
      (col2, r :: rs)
  end.

(** Text of ASCII characters only: every byte is below 128.  On such text
    [toUpperCase] is JavaScript's, and a character is one byte and one
    code unit. *)
Fixpoint asciiText (s : string) : bool :=
  match s with
  | EmptyString => true
  | String c s' => (nat_of_ascii c <? 128)%nat && asciiText s'
  end.

Definition isCreated (r : Routes.Response) : bool :=
  if r is Routes.Created _ _ _ _ then true else false.

(** The same request with another client-supplied cup size in its body. *)
Definition withClientCupSize (c : option CupSize) (req : Routes.Request)
    : Routes.Request :=
  let b := Routes.body req in
  Routes.mkRequest (Routes.user req)
    (Routes.mkBody (Routes.menuCode b) (Routes.shavedIce b) (Routes.toppings b)
                   (Routes.specialInstructions b) c).

Module Spec.

(** The transition rule in the specification's words: forward only,
    Pending → Preparing → Ready → Completed, and Cancelled from any
    non-terminal state. *)
Definition terminal (s : Order.Status) : bool :=
  match s with
  | Order.Completed | Order.Cancelled => true
  | _ => false
  end.

Definition transitionAllowed (from to : Order.Status) : bool :=
  match from, to with
  | Order.Pending, Order.Preparing
  | Order.Preparing, Order.Ready
  | Order.Ready, Order.Completed => true
  | _, Order.Cancelled => negb (terminal from)
  | _, _ => false
  end.

End Spec.

(** ** Sample data *)
Module Sample.

Definition stocks : list Stock.Doc :=
  [ Stock.mkDoc Stock.flavor "Strawberry" 50 "cups" 20 true 0;
    Stock.mkDoc Stock.topping "Mango" 1 "cups" 20 true 0;
    Stock.mkDoc Stock.topping "Apple" 20 "cups" 20 true 0 ].

Definition legacyStocks : list StockLegacy.Doc :=
  [ StockLegacy.mkDoc Stock.topping "Mango" 1 "cups" 20 0;
    StockLegacy.mkDoc Stock.topping "Apple" 20 "cups" 20 0;
    StockLegacy.mkDoc Stock.flavor "Strawberry" 50 "cups" 20 0 ].

(** A fresh code, an exhausted code, and two expired codes (one never
    used, one used twice); the clock of the samples reads 1000. *)
Definition fresh : MenuCode.Doc :=
  MenuCode.mkDoc "ABCDE" cupM 0 5 99 [] 2000 0.
Definition exhausted : MenuCode.Doc :=
  MenuCode.mkDoc "FULL5" cupL 5 5 99
    [MenuCode.mkUsedBy 11 10; MenuCode.mkUsedBy 12 20; MenuCode.mkUsedBy 13 30;
     MenuCode.mkUsedBy 14 40; MenuCode.mkUsedBy 15 50] 2000 0.
Definition staleUnused : MenuCode.Doc :=
  MenuCode.mkDoc "OLD00" cupS 0 5 99 [] 500 0.
Definition staleUsed : MenuCode.Doc :=
  MenuCode.mkDoc "OLD01" cupS 2 5 99
    [MenuCode.mkUsedBy 16 60; MenuCode.mkUsedBy 17 70] 500 0.

Definition menuCodes : list MenuCode.Doc :=
  [fresh; exhausted; staleUnused; staleUsed].

(** Random draws that walk through the alphabet: the first candidate is
    ABCDE, the second FGHIJ. *)
Definition draws (k : nat) : nat := (k mod 36)%nat.

(** The code issued from these draws at clock 1000. *)
Definition issued : MenuCode.Doc :=
  MenuCode.mkDoc "FGHIJ" cupL 0 5 99 [] 86401000 1000.

(** Five redemptions, by clock reading and order. *)
Definition fiveCalls : list (Time * ObjectId) :=
  [(1000, 21); (1001, 22); (1002, 23); (1003, 24); (1004, 25)].

(** An order already served. *)
Definition served : Order.Doc :=
  Order.mkDoc 1 (Some "ORDAAA111") None "FULL5" "#AAAAA" cupL
    (Order.mkShavedIce "Matcha" 0) []
    (Order.mkPricing 60 20 0 (Some 80))
    Order.Completed Order.Paid ""
    (Order.mkTimestamps 10 (Some 20) (Some 30) (Some 40)) false.

Definition regular : User.Doc := User.mkDoc 7 12 (User.mkCard 9 0) [].

Definition db : Routes.Db := Routes.mkDb stocks menuCodes [served] [regular].

Definition env : Routes.Env := Routes.mkEnv 1000 2 "k3f9a" "ORDXYZ123".

Definition selection (c : string) (client : option CupSize) : Routes.Body :=
  Routes.mkBody c (Order.mkShavedIce "Strawberry" 3)
    [Order.mkTopping "Mango" 1] None client.

Definition guest : Routes.Request :=
  Routes.mkRequest None (selection "abcde" (Some cupL)).
Definition guestOnExhausted : Routes.Request :=
  Routes.mkRequest None (selection "FULL5" None).
Definition member : Routes.Request :=
  Routes.mkRequest (Some 7) (selection "ABCDE" None).

(** The member asks for a flavor the schema does not list. *)
Definition memberDurian : Routes.Request :=
  Routes.mkRequest (Some 7)
    (Routes.mkBody "ABCDE" (Order.mkShavedIce "Durian" 0) [] None None).

(** A clock and draws whose customer code is the one of [served]. *)
Definition envRepeating : Routes.Env := Routes.mkEnv 1000 2 "aaaaa" "ORDXYZ123".

(** Three toppings of the menu page, and a fourth. *)
Definition apple : MenuPage.MenuItem :=
  MenuPage.mkItem "Apple" 1 "Juicy crunch" "/images/apple.png" None
                  (Some "#B51212") (Some true) (Some 20).
Definition cherry : MenuPage.MenuItem :=
  MenuPage.mkItem "Cherry" 2 "Sweet & tangy" "/images/cherry.png" None
                  (Some "#B51212") (Some true) (Some 50).
Definition blueberry : MenuPage.MenuItem :=
  MenuPage.mkItem "Blueberry" 3 "Sweet berries" "/images/blueberry.png" None
                  (Some "#354088") (Some true) (Some 50).
Definition raspberry : MenuPage.MenuItem :=
  MenuPage.mkItem "Raspberry" 4 "Bold & tangy" "/images/raspberry.png" None
                  (Some "#B51212") (Some true) (Some 50).
Definition strawberryIce : MenuPage.MenuItem :=
  MenuPage.mkItem "Strawberry" 1 "A sweet, icy kiss of summer!"
                  "/images/strawberry-ice.png" (Some "#B23434") None
                  (Some true) (Some 50).

(** The order created from what the menu page sends for Strawberry with
    Raspberry on the code ABCDE. *)
Definition pageOrder : Order.Doc :=
  Order.mkDoc 2 (Some "ORDXYZ123") None "ABCDE" "#K3F9A" cupM
    (Order.mkShavedIce "Strawberry" 1) [Order.mkTopping "Raspberry" 4]
    (Order.mkPricing 60 10 10 (Some 80))
    Order.Pending Order.Paid ""
    (Order.mkTimestamps 1000 None None None) false.

(** The order the guest request creates. *)
Definition guestOrder : Order.Doc :=
  Order.mkDoc 2 (Some "ORDXYZ123") None "ABCDE" "#K3F9A" cupM
    (Order.mkShavedIce "Strawberry" 3) [Order.mkTopping "Mango" 1]
    (Order.mkPricing 60 10 10 (Some 80))
    Order.Pending Order.Paid ""
    (Order.mkTimestamps 1000 None None None) false.

Definition large : Order.Doc :=
  Order.mkDoc 3 None None "ABCDE" "#BBBBB" cupL
    (Order.mkShavedIce "Milk" 0)
    [Order.mkTopping "Apple" 0; Order.mkTopping "Cherry" 0;
     Order.mkTopping "Banana" 0]
    (Order.mkPricing 60 0 0 None)
    Order.Pending Order.Paid ""
    (Order.mkTimestamps 1000 None None None) false.

Definition treat : Order.Doc := Order.set_isFreeDrink true large.

(** The order the member's request creates: the tenth stamp makes it a
    free drink. *)
Definition memberOrder : Order.Doc :=
  Order.mkDoc 2 (Some "ORDXYZ123") (Some 7) "ABCDE" "#K3F9A" cupM
    (Order.mkShavedIce "Strawberry" 3) [Order.mkTopping "Mango" 1]
    (Order.mkPricing 60 10 10 (Some 0))
    Order.Pending Order.Paid ""
    (Order.mkTimestamps 1000 None None None) true.

(** The order the guest's request creates on the exhausted code. *)
Definition guestOrderOnExhausted : Order.Doc :=
  Order.mkDoc 2 (Some "ORDXYZ123") None "FULL5" "#K3F9A" cupL
    (Order.mkShavedIce "Strawberry" 3) [Order.mkTopping "Mango" 1]
    (Order.mkPricing 60 20 10 (Some 90))
    Order.Pending Order.Paid ""
    (Order.mkTimestamps 1000 None None None) false.

(** The sample store after the guest's order, after the member's order
    (the card is reset and the free drink counted), and after the guest's
    order on the exhausted code. *)
Definition dbAfterGuest : Routes.Db :=
  Routes.mkDb stocks menuCodes [served; guestOrder] [regular].
Definition dbAfterMember : Routes.Db :=
  Routes.mkDb stocks menuCodes [served; memberOrder]
    [User.mkDoc 7 12 (User.mkCard 0 1) [2]].
Definition dbAfterExhausted : Routes.Db :=
  Routes.mkDb stocks menuCodes [served; guestOrderOnExhausted] [regular].

(** A store that holds an order written without its total. *)
Definition dbUnpriced : Routes.Db :=
  Routes.mkDb stocks menuCodes [served; large] [regular].

End Sample.

(** * Properties *)

(** ** Collections: first match and write-back *)
Section Collections.
Context {A : Type} (P : A → Prop) `{!∀ x, Decision (P x)}.

Lemma find_position (l : list A) i x :
  list_find P l = Some (i, x) → l !! i = Some x ∧ P x.
Proof. intros Hf. apply list_find_Some in Hf. tauto. Qed.

(** Writing back, at the position found, a document that still matches
    leaves it the first match. *)
Lemma find_after_write (l : list A) i x y :
  list_find P l = Some (i, x) → P y →
  list_find P (<[i:=y]> l) = Some (i, y).
Proof.
  intros Hf Py. apply list_find_Some in Hf as (Hi & Px & Hleast).
  apply list_find_Some. split_and!.
  - apply list_lookup_insert_eq. by eapply lookup_lt_Some.
  - done.
  - intros j z Hj Hlt. rewrite list_lookup_insert_ne in Hj by lia. eauto.
Qed.

Lemma filter_split_length (l : list A) :
  length l = (length (filter P l) + length (filter (λ x, ¬ P x) l))%nat.
Proof.
  induction l as [|x l IH]; [done|].
  rewrite !filter_cons. destruct (decide (P x)), (decide (¬ P x)); simpl; try tauto; lia.
Qed.

End Collections.

(** ** Stock ledger *)
Section StockLedger.
Implicit Types (col : list Stock.Doc) (amount : option Z).

Lemma reduceStock_absent ty nm amount col :
  Stock.findOne ty nm col = None →
  Stock.reduceStock ty nm amount col = (col, Returned None).
Proof. unfold Stock.reduceStock. by intros ->. Qed.

Lemma reduceStock_insufficient ty nm amount col i s :
  Stock.findOne ty nm col = Some (i, s) →
  Stock.quantity s < default 1 amount →
  Stock.reduceStock ty nm amount col
  = (col, Thrown (InsufficientStock nm (Stock.quantity s))).
Proof.
  unfold Stock.reduceStock. intros -> Hlt.
  by rewrite (proj2 (Z.ltb_lt _ _) Hlt).
Qed.

Lemma reduceStock_enough ty nm amount col i s :
  Stock.findOne ty nm col = Some (i, s) →
  default 1 amount ≤ Stock.quantity s →
  let s' := Stock.set_quantity (Stock.quantity s - default 1 amount) s in
  Stock.reduceStock ty nm amount col = (<[i:=s']> col, Returned (Some s'))
  ∧ 0 ≤ Stock.quantity s'.
Proof.
  unfold Stock.reduceStock, Stock.save. intros -> Hle. simpl.
  rewrite (proj2 (Z.ltb_ge _ _) Hle).
  assert (0 ≤ Stock.quantity s - default 1 amount) as Hq by lia.
  by rewrite (proj2 (Z.ltb_ge _ _) Hq).
Qed.

Lemma reduceStock_keeps_nonnegative ty nm amount col :
  Forall (λ d, 0 ≤ Stock.quantity d) col →
  Forall (λ d, 0 ≤ Stock.quantity d) (Stock.reduceStock ty nm amount col).1.
Proof.
  intros Hcol. destruct (Stock.findOne ty nm col) as [[i s]|] eqn:Hfind.
  - destruct (Z.lt_ge_cases (Stock.quantity s) (default 1 amount)) as [Hlt|Hle].
    + by rewrite (reduceStock_insufficient _ _ _ _ _ _ Hfind Hlt).
    + destruct (reduceStock_enough _ _ _ _ _ _ Hfind Hle) as [-> Hq].
      by apply Forall_insert.
  - by rewrite reduceStock_absent.
Qed.

(** C6 (as amended).  [reduceStock] has three outcomes.  When no document
    matches the item type and name it returns null, throws nothing and
    leaves the collection as it was.  When the first match holds less than
    the amount it throws the insufficient-stock error and leaves the
    collection as it was.  Otherwise it writes back the quantity minus the
    amount, which is not negative, and returns the document.  A collection
    of non-negative quantities stays one. *)
Theorem reduceStock_outcomes ty nm amount col :
  (Stock.findOne ty nm col = None →
   Stock.reduceStock ty nm amount col = (col, Returned None))
  ∧ (∀ i s, Stock.findOne ty nm col = Some (i, s) →
       Stock.quantity s < default 1 amount →
       Stock.reduceStock ty nm amount col
       = (col, Thrown (InsufficientStock nm (Stock.quantity s))))
  ∧ (∀ i s, Stock.findOne ty nm col = Some (i, s) →
       default 1 amount ≤ Stock.quantity s →
       let s' := Stock.set_quantity (Stock.quantity s - default 1 amount) s in
       Stock.reduceStock ty nm amount col = (<[i:=s']> col, Returned (Some s'))
       ∧ 0 ≤ Stock.quantity s')
  ∧ (Forall (λ d, 0 ≤ Stock.quantity d) col →
     Forall (λ d, 0 ≤ Stock.quantity d) (Stock.reduceStock ty nm amount col).1).
Proof.
  split_and!.
  - apply reduceStock_absent.
  - intros i s. apply reduceStock_insufficient.
  - intros i s. apply reduceStock_enough.
  - apply reduceStock_keeps_nonnegative.
Qed.

(** C6, the claim as stated fails: decrementing an item that is not in the
    ledger is not an error; the call returns null. *)
Lemma reduceStock_absent_is_null :
  Stock.reduceStock Stock.topping "Banana" None Sample.stocks
  = (Sample.stocks, Returned None).
Proof. reflexivity. Qed.

(** The three outcomes on the sample ledger: Banana is absent, two Mango
    are asked of one, and one Mango is taken. *)
Lemma reduceStock_outcomes_sample :
  Stock.reduceStock Stock.topping "Banana" None Sample.stocks
  = (Sample.stocks, Returned None)
  ∧ Stock.reduceStock Stock.topping "Mango" (Some 2) Sample.stocks
    = (Sample.stocks, Thrown (InsufficientStock "Mango" 1))
  ∧ Stock.reduceStock Stock.topping "Mango" None Sample.stocks
    = (<[1%nat:=Stock.mkDoc Stock.topping "Mango" 0 "cups" 20 true 0]>
         Sample.stocks,
       Returned (Some (Stock.mkDoc Stock.topping "Mango" 0 "cups" 20 true 0))).
Proof.
  split_and!.
  - apply (proj1 (reduceStock_outcomes Stock.topping "Banana" None Sample.stocks)).
    reflexivity.
  - apply (proj1 (proj2 (reduceStock_outcomes Stock.topping "Mango" (Some 2)
                           Sample.stocks))
             1%nat (Stock.mkDoc Stock.topping "Mango" 1 "cups" 20 true 0)).
    + reflexivity.
    + simpl. lia.
  - apply (proj1 (proj2 (proj2 (reduceStock_outcomes Stock.topping "Mango" None
                                  Sample.stocks)))
             1%nat (Stock.mkDoc Stock.topping "Mango" 1 "cups" 20 true 0)).
    + reflexivity.
    + simpl. lia.
Defined.

(** C7.  The low-stock query of the current Stock model returns exactly
    the documents whose quantity is strictly below their reorder level,
    in collection order. *)
Theorem getLowStockItems_strict col :
  (∀ d, d ∈ Stock.getLowStockItems col
        ↔ d ∈ col ∧ Stock.quantity d < Stock.reorderLevel d)
  ∧ sublist (Stock.getLowStockItems col) col.
Proof.
  split.
  - intros d. unfold Stock.getLowStockItems. rewrite list_elem_of_filter. tauto.
  - apply sublist_filter; apply _.
Qed.

(** Apple, exactly at its reorder level, is not reported. *)
Lemma getLowStockItems_sample :
  Stock.getLowStockItems Sample.stocks
  = [Stock.mkDoc Stock.topping "Mango" 1 "cups" 20 true 0].
Proof. reflexivity. Qed.

End StockLedger.

(** X1.  The older Stock model answers the low-stock query with [≤]: it
    reports exactly the documents whose quantity is at most their reorder
    level.  On the same quantities and levels it therefore reports every
    item the current model reports, and the items it reports beyond those
    are exactly the ones standing at their reorder level. *)
Theorem legacy_getLowStockItems_inclusive
    (old : list StockLegacy.Doc) (new : list Stock.Doc) :
  Forall2 (λ a b, StockLegacy.quantity a = Stock.quantity b
                  ∧ StockLegacy.reorderLevel a = Stock.reorderLevel b)
          old new →
  (∀ a, a ∈ StockLegacy.getLowStockItems old
        ↔ a ∈ old ∧ StockLegacy.quantity a ≤ StockLegacy.reorderLevel a)
  ∧ length (StockLegacy.getLowStockItems old)
    = (length (Stock.getLowStockItems new)
       + length (filter (λ a, StockLegacy.quantity a
                              = StockLegacy.reorderLevel a) old))%nat
  ∧ ∀ i a b, old !! i = Some a → new !! i = Some b →
      (b ∈ Stock.getLowStockItems new → a ∈ StockLegacy.getLowStockItems old)
      ∧ (a ∈ StockLegacy.getLowStockItems old ∧ b ∉ Stock.getLowStockItems new
         ↔ StockLegacy.quantity a = StockLegacy.reorderLevel a).
Proof.
  unfold StockLegacy.getLowStockItems, Stock.getLowStockItems.
  intros Hsame. split_and!.
  - intros a. rewrite list_elem_of_filter. tauto.
  - induction Hsame as [|a b old new [Hq Hl] _ IH]; [done|].
    rewrite !filter_cons. repeat case_decide; simpl; rewrite IH; lia.
  - intros i a b Ha Hb.
    destruct (Forall2_lookup_lr _ _ _ _ _ _ Hsame Ha Hb) as [Hq Hl].
    apply list_elem_of_lookup_2 in Ha, Hb.
    rewrite !list_elem_of_filter. split; [|split].
    + intros [Hlow _]. split; [lia|done].
    + intros [[Hle _] Hnot]. destruct (decide (Stock.quantity b
                                               < Stock.reorderLevel b));
        [by destruct Hnot|lia].
    + intros Heq. split; [split; [lia|done]|]. intros [Hlow _]. lia.
Qed.

(** Apple, exactly at its reorder level, is reported by the older model
    and not by the current one: two items against one. *)
Lemma legacy_getLowStockItems_sample :
  StockLegacy.getLowStockItems Sample.legacyStocks
  = [StockLegacy.mkDoc Stock.topping "Mango" 1 "cups" 20 0;
     StockLegacy.mkDoc Stock.topping "Apple" 20 "cups" 20 0]
  ∧ length (StockLegacy.getLowStockItems Sample.legacyStocks)
    = S (length (Stock.getLowStockItems
                   [Stock.mkDoc Stock.topping "Mango" 1 "cups" 20 true 0;
                    Stock.mkDoc Stock.topping "Apple" 20 "cups" 20 true 0;
                    Stock.mkDoc Stock.flavor "Strawberry" 50 "cups" 20 true 0])).
Proof.
  split; [reflexivity|].
  apply (proj1 (proj2 (legacy_getLowStockItems_inclusive Sample.legacyStocks
    [Stock.mkDoc Stock.topping "Mango" 1 "cups" 20 true 0;
     Stock.mkDoc Stock.topping "Apple" 20 "cups" 20 true 0;
     Stock.mkDoc Stock.flavor "Strawberry" 50 "cups" 20 true 0]
    ltac:(repeat constructor)))).
Defined.

(** ** Menu codes *)
Section MenuCodes.
Implicit Types (col : list MenuCode.Doc) (m : MenuCode.Doc).

Lemma validateAndUse_redeems now c oid col i m :
  MenuCode.findOne (toUpperCase c) col = Some (i, m) →
  ¬ MenuCode.expiresAt m < now →
  MenuCode.usageCount m < MenuCode.maxUsage m →
  MenuCode.validateAndUse now c oid col
  = (<[i:=MenuCode.use oid now m]> col, Returned (MenuCode.use oid now m)).
Proof.
  unfold MenuCode.validateAndUse. intros -> Hfresh Hleft.
  rewrite (proj2 (Z.ltb_ge _ _)) by lia.
  by rewrite (proj2 (Z.leb_gt _ _)) by lia.
Qed.

Lemma validateAndUse_limit now c oid col i m :
  MenuCode.findOne (toUpperCase c) col = Some (i, m) →
  ¬ MenuCode.expiresAt m < now →
  MenuCode.maxUsage m ≤ MenuCode.usageCount m →
  MenuCode.validateAndUse now c oid col = (col, Thrown UsageLimitReached).
Proof.
  unfold MenuCode.validateAndUse. intros -> Hfresh Hfull.
  rewrite (proj2 (Z.ltb_ge _ _)) by lia.
  by rewrite (proj2 (Z.leb_le _ _)) by lia.
Qed.

(** A call that throws leaves the collection as it was. *)
Lemma validateAndUse_thrown now c oid col col' e :
  MenuCode.validateAndUse now c oid col = (col', Thrown e) → col' = col.
Proof.
  unfold MenuCode.validateAndUse.
  destruct (MenuCode.findOne _ col) as [[i m]|]; [|congruence].
  repeat case_match; congruence.
Qed.

Lemma validateAndUse_within_limit now c oid col :
  Forall (λ m, MenuCode.usageCount m ≤ MenuCode.maxUsage m) col →
  Forall (λ m, MenuCode.usageCount m ≤ MenuCode.maxUsage m)
         (MenuCode.validateAndUse now c oid col).1.
Proof.
  intros Hcol. unfold MenuCode.validateAndUse.
  destruct (MenuCode.findOne _ col) as [[i m]|]; [|done].
  destruct (MenuCode.expiresAt m <? now); [done|].
  destruct (MenuCode.maxUsage m <=? MenuCode.usageCount m) eqn:Hfull; [done|].
  apply Z.leb_gt in Hfull. apply Forall_insert; [done|]. simpl. lia.
Qed.

Lemma redemptions_within_limit c calls : ∀ col,
  Forall (λ m, MenuCode.usageCount m ≤ MenuCode.maxUsage m) col →
  Forall (λ m, MenuCode.usageCount m ≤ MenuCode.maxUsage m)
         (redemptions c calls col).1.
Proof.
  induction calls as [|[t oid] rest IH]; intros col Hcol; [done|].
  simpl. pose proof (validateAndUse_within_limit t c oid col Hcol) as H1.
  destruct (MenuCode.validateAndUse t c oid col) as [col1 r].
  specialize (IH col1 H1).
  by destruct (redemptions c rest col1) as [col2 rs].
Qed.

(** As long as uses remain and the code has not expired, every call of a
    sequence succeeds; the k-th returns the document with k more uses. *)
Lemma redemptions_succeed c calls : ∀ col i m,
  MenuCode.findOne (toUpperCase c) col = Some (i, m) →
  Forall (λ call, ¬ MenuCode.expiresAt m < call.1) calls →
  MenuCode.usageCount m + Z.of_nat (length calls) ≤ MenuCode.maxUsage m →
  ∃ col' rs m',
    redemptions c calls col = (col', rs)
    ∧ length rs = length calls
    ∧ MenuCode.findOne (toUpperCase c) col' = Some (i, m')
    ∧ MenuCode.usageCount m' = MenuCode.usageCount m + Z.of_nat (length calls)
    ∧ MenuCode.maxUsage m' = MenuCode.maxUsage m
    ∧ MenuCode.expiresAt m' = MenuCode.expiresAt m
    ∧ (∀ j r, rs !! j = Some r →
         ∃ mj, r = Returned mj
               ∧ MenuCode.usageCount mj = MenuCode.usageCount m + Z.of_nat j + 1
               ∧ length (MenuCode.usedBy mj)
                 = (length (MenuCode.usedBy m) + j + 1)%nat).
Proof.
  induction calls as [|[t oid] rest IH]; intros col i m Hfind Hfresh Hleft.
  - exists col, [], m. simpl. split_and!; try done. lia.
  - apply Forall_cons in Hfresh as [Ht Hrest]. simpl in Ht, Hleft.
    simpl. rewrite (validateAndUse_redeems t c oid col i m) by (done || lia).
    assert (MenuCode.findOne (toUpperCase c) (<[i:=MenuCode.use oid t m]> col)
            = Some (i, MenuCode.use oid t m)) as Hfind1.
    { apply find_after_write with (x := m); [done|].
      apply find_position in Hfind as [_ Hcode]. exact Hcode. }
    destruct (IH _ i (MenuCode.use oid t m) Hfind1) as
      (col' & rs & m' & -> & Hlen & Hfind' & Hcount & Hmax & Hexp & Hrs).
    { done. }
    { simpl. lia. }
    exists col', (Returned (MenuCode.use oid t m) :: rs), m'.
    simpl in *. split_and!; try done; try lia.
    intros [|j] r Hj; simpl in Hj.
    + injection Hj as <-. eexists. split_and!; [done|simpl; lia|].
      simpl. rewrite length_app. simpl. lia.
    + destruct (Hrs j r Hj) as (mj & -> & Hc & Hu).
      exists mj. split_and!; [done|lia|].
      rewrite Hu, length_app. simpl. lia.
Qed.

(** C5.  Under any sequence of redemptions no code's usage count passes
    its maximum.  A fresh code with maxUsage = N, redeemed N times before
    it expires, succeeds N times: the k-th success returns the code with
    usage count k and k entries more in usedBy.  Any further redemption
    then throws the usage-limit error and leaves the collection, hence
    the usage count, as it was. *)
Theorem redemptions_up_to_limit :
  (∀ c calls col,
     Forall (λ m, MenuCode.usageCount m ≤ MenuCode.maxUsage m) col →
     Forall (λ m, MenuCode.usageCount m ≤ MenuCode.maxUsage m)
            (redemptions c calls col).1)
  ∧ (∀ c col i m (n : nat) calls,
       MenuCode.findOne (toUpperCase c) col = Some (i, m) →
       MenuCode.usageCount m = 0 →
       MenuCode.maxUsage m = Z.of_nat n →
       length calls = n →
       Forall (λ call, ¬ MenuCode.expiresAt m < call.1) calls →
       ∃ col' rs m',
         redemptions c calls col = (col', rs)
         ∧ length rs = n
         ∧ (∀ j r, rs !! j = Some r →
              ∃ mj, r = Returned mj
                    ∧ MenuCode.usageCount mj = Z.of_nat j + 1
                    ∧ length (MenuCode.usedBy mj)
                      = (length (MenuCode.usedBy m) + j + 1)%nat)
         ∧ MenuCode.findOne (toUpperCase c) col' = Some (i, m')
         ∧ MenuCode.usageCount m' = MenuCode.maxUsage m'
         ∧ ∀ t oid, ¬ MenuCode.expiresAt m < t →
             MenuCode.validateAndUse t c oid col'
             = (col', Thrown UsageLimitReached)).
Proof.
  split; [apply redemptions_within_limit|].
  intros c col i m n calls Hfind Hzero Hmax Hlen Hfresh.
  destruct (redemptions_succeed c calls col i m Hfind Hfresh) as
    (col' & rs & m' & Hrun & Hlen' & Hfind' & Hcount & Hmax' & Hexp & Hrs).
  { lia. }
  exists col', rs, m'. split_and!; try done; try lia.
  - intros j r Hj. destruct (Hrs j r Hj) as (mj & -> & Hc & Hu).
    exists mj. split_and!; [done|lia|done].
  - intros t oid Ht. apply validateAndUse_limit with (i := i) (m := m');
      [done| |]; lia.
Qed.

(** ABCDE, fresh with maxUsage 5, redeemed five times on the sample
    collection. *)
Lemma redemptions_up_to_limit_sample :
  ∃ col' rs m',
    redemptions "abcde" Sample.fiveCalls Sample.menuCodes = (col', rs)
    ∧ length rs = 5%nat
    ∧ (∀ j r, rs !! j = Some r →
         ∃ mj, r = Returned mj
               ∧ MenuCode.usageCount mj = Z.of_nat j + 1
               ∧ length (MenuCode.usedBy mj)
                 = (length (MenuCode.usedBy Sample.fresh) + j + 1)%nat)
    ∧ MenuCode.findOne (toUpperCase "abcde") col' = Some (0%nat, m')
    ∧ MenuCode.usageCount m' = MenuCode.maxUsage m'
    ∧ ∀ t oid, ¬ MenuCode.expiresAt Sample.fresh < t →
        MenuCode.validateAndUse t "abcde" oid col'
        = (col', Thrown UsageLimitReached).
Proof.
  apply (proj2 redemptions_up_to_limit "abcde"%string Sample.menuCodes 0%nat
           Sample.fresh 5%nat Sample.fiveCalls).
  - reflexivity.
  - reflexivity.
  - reflexivity.
  - reflexivity.
  - unfold Sample.fiveCalls. repeat constructor; simpl; lia.
Defined.

(** The scenario of the specification, run: five redemptions of ABCDE
    succeed and the sixth is refused. *)
Lemma six_redemptions_of_ABCDE :
  (redemptions "ABCDE" (Sample.fiveCalls ++ [(1005, 26)]) Sample.menuCodes).2
  = [Returned (MenuCode.mkDoc "ABCDE" cupM 1 5 99
                 [MenuCode.mkUsedBy 21 1000] 2000 0);
     Returned (MenuCode.mkDoc "ABCDE" cupM 2 5 99
                 [MenuCode.mkUsedBy 21 1000; MenuCode.mkUsedBy 22 1001] 2000 0);
     Returned (MenuCode.mkDoc "ABCDE" cupM 3 5 99
                 [MenuCode.mkUsedBy 21 1000; MenuCode.mkUsedBy 22 1001;
                  MenuCode.mkUsedBy 23 1002] 2000 0);
     Returned (MenuCode.mkDoc "ABCDE" cupM 4 5 99
                 [MenuCode.mkUsedBy 21 1000; MenuCode.mkUsedBy 22 1001;
                  MenuCode.mkUsedBy 23 1002; MenuCode.mkUsedBy 24 1003] 2000 0);
     Returned (MenuCode.mkDoc "ABCDE" cupM 5 5 99
                 [MenuCode.mkUsedBy 21 1000; MenuCode.mkUsedBy 22 1001;
                  MenuCode.mkUsedBy 23 1002; MenuCode.mkUsedBy 24 1003;
                  MenuCode.mkUsedBy 25 1004] 2000 0);
     Thrown UsageLimitReached].
Proof. reflexivity. Qed.

(** C8.  [cleanupExpired] keeps exactly the codes that are not both unused
    (usageCount = 0) and past their expiry, in their order and unchanged;
    the number it returns is the number of codes it removed; a code used
    at least once is kept, expired or not. *)
Theorem cleanupExpired_exact now col :
  (∀ m, m ∈ (MenuCode.cleanupExpired now col).1
        ↔ m ∈ col ∧ ¬ (MenuCode.usageCount m = 0 ∧ MenuCode.expiresAt m < now))
  ∧ sublist (MenuCode.cleanupExpired now col).1 col
  ∧ (MenuCode.cleanupExpired now col).2
    = length (filter (λ m, MenuCode.usageCount m = 0
                           ∧ MenuCode.expiresAt m < now) col)
  ∧ length col
    = (length (MenuCode.cleanupExpired now col).1
       + (MenuCode.cleanupExpired now col).2)%nat
  ∧ (∀ m, m ∈ col → 1 ≤ MenuCode.usageCount m →
          m ∈ (MenuCode.cleanupExpired now col).1).
Proof.
  unfold MenuCode.cleanupExpired. simpl. split_and!.
  - intros m. rewrite list_elem_of_filter. unfold MenuCode.unusedExpired. tauto.
  - apply sublist_filter; apply _.
  - done.
  - rewrite (filter_split_length (MenuCode.unusedExpired now) col). lia.
  - intros m Hm Hused. apply list_elem_of_filter. split; [|done].
    unfold MenuCode.unusedExpired. lia.
Qed.

(** Of the two expired sample codes only the unused one is removed. *)
Lemma cleanupExpired_sample :
  MenuCode.cleanupExpired 1000 Sample.menuCodes
  = ([Sample.fresh; Sample.exhausted; Sample.staleUsed], 1%nat)
  ∧ Sample.staleUsed ∈ (MenuCode.cleanupExpired 1000 Sample.menuCodes).1.
Proof.
  split; [reflexivity|].
  apply (proj2 (proj2 (proj2 (proj2
           (cleanupExpired_exact 1000 Sample.menuCodes))))).
  - unfold Sample.menuCodes. repeat constructor.
  - simpl. lia.
Defined.

End MenuCodes.

(** ** Orders: price and status *)
Section Orders.
Implicit Types (o : Order.Doc) (s : Order.Status).

Lemma num_or_zero x : num_or x 0 = x.
Proof. unfold num_or. destruct (Z.eqb_spec x 0); congruence. Qed.

(** The price for any stored base price: [basePrice || 60]. *)
Lemma calculateTotal_general o :
  (Order.calculateTotal o).2
  = if Order.isFreeDrink o then 0
    else num_or (Order.basePrice (Order.pricing o)) 60
         + Order.sizePrices (Order.cupSize o)
         + 10 * Z.of_nat (length (Order.toppings o)).
Proof.
  unfold Order.calculateTotal. simpl. rewrite !num_or_zero.
  destruct (Order.isFreeDrink o); lia.
Qed.

(** C2.  For an order with the base price 60 (the schema default, and what
    the create handler sets), [calculateTotal] records the size surcharge
    (S 0, M 10, L 20) and 10 per topping beside the base price, and the
    total it stores and returns is their sum, or 0 when the order is a
    free drink. *)
Theorem calculateTotal_price o :
  Order.basePrice (Order.pricing o) = 60 →
  let o' := (Order.calculateTotal o).1 in
  let surcharge := match Order.cupSize o with
                   | cupS => 0 | cupM => 10 | cupL => 20
                   end in
  let perTopping := 10 * Z.of_nat (length (Order.toppings o)) in
  Order.basePrice (Order.pricing o') = 60
  ∧ Order.sizePrice (Order.pricing o') = surcharge
  ∧ Order.toppingsPrice (Order.pricing o') = perTopping
  ∧ Order.total (Order.pricing o') = Some (Order.calculateTotal o).2
  ∧ (Order.calculateTotal o).2
    = if Order.isFreeDrink o then 0 else 60 + surcharge + perTopping.
Proof.
  intros Hbase. rewrite calculateTotal_general.
  unfold Order.calculateTotal. simpl. rewrite !num_or_zero, Hbase.
  unfold num_or. simpl. split_and!.
  - done.
  - by destruct (Order.cupSize o).
  - lia.
  - destruct (Order.isFreeDrink o); [done|]. f_equal. lia.
  - by destruct (Order.isFreeDrink o), (Order.cupSize o).
Qed.

(** Size L with three toppings: 110, and 0 with the breakdown 60, 20, 30
    when it is a free drink. *)
Lemma calculateTotal_price_sample :
  (Order.calculateTotal Sample.large).2 = 110
  ∧ (Order.calculateTotal Sample.treat).2 = 0
  ∧ Order.pricing (Order.calculateTotal Sample.treat).1
    = Order.mkPricing 60 20 30 (Some 0).
Proof.
  split_and!.
  - apply (calculateTotal_price Sample.large). reflexivity.
  - apply (calculateTotal_price Sample.treat). reflexivity.
  - reflexivity.
Defined.

Lemma calculateTotal_keeps o :
  Order.paymentStatus (Order.calculateTotal o).1 = Order.paymentStatus o
  ∧ Order.cupSize (Order.calculateTotal o).1 = Order.cupSize o
  ∧ Order._id (Order.calculateTotal o).1 = Order._id o
  ∧ Order.status (Order.calculateTotal o).1 = Order.status o.
Proof. done. Qed.

Lemma assignStatus_invalidPaths now s o :
  Order.invalidPaths (Order.assignStatus now s o) = Order.invalidPaths o.
Proof. done. Qed.

Lemma preSave_assignStatus now gen s o :
  Order.preSave gen (Order.assignStatus now s o)
  = Order.assignStatus now s (Order.preSave gen o).
Proof. unfold Order.preSave. simpl. by repeat case_match. Qed.

Lemma preSave_orderId gen o :
  Order.orderId o ≠ None → Order.orderId o ≠ Some ""%string →
  Order.preSave gen o = o.
Proof.
  unfold Order.preSave. destruct (Order.orderId o) as [x|]; [|done].
  intros _ Hx. case_decide; [by subst|done].
Qed.

(** What the save of a loaded order does, by cases: refused by the
    validators, refused by the unique index on a generated [orderId], or
    written back. *)
Lemma update_cases gen i o col :
  let o' := Order.preSave gen o in
  (∀ p ps, Order.invalidPaths o = p :: ps →
     Order.update gen i o col = (col, Thrown (ValidationError (p :: ps))))
  ∧ (Order.invalidPaths o = [] →
     Order.orderId o' ≠ Order.orderId o →
     Exists (λ d, Order.orderId d = Order.orderId o') col →
     Order.update gen i o col = (col, Thrown (DuplicateKey "orderId")))
  ∧ (Order.invalidPaths o = [] →
     Order.orderId o' = Order.orderId o
     ∨ Forall (λ d, Order.orderId d ≠ Order.orderId o') col →
     Order.update gen i o col = (<[i:=o']> col, Returned o')).
Proof.
  unfold Order.update. split_and!.
  - by intros p ps ->.
  - intros -> Hid Hex. by rewrite decide_True.
  - intros -> Hfree. rewrite decide_False; [done|].
    intros [Hid Hex]. destruct Hfree as [Heq|Hall]; [done|].
    apply Exists_exists in Hex as (d & Hd & Hsame).
    by apply (proj1 (Forall_forall _ _) Hall d Hd).
Qed.

Lemma preSave_customerCode gen o :
  Order.customerCode (Order.preSave gen o) = Order.customerCode o.
Proof. unfold Order.preSave. by repeat case_match. Qed.

(** The store after a run of the status handler: only the collection of
    orders can differ, and only by the order found, written back in
    place. *)
Lemma putStatus_store now gen id s db :
  Routes.stocks (Routes.putStatus now gen id s db).1 = Routes.stocks db
  ∧ Routes.menuCodes (Routes.putStatus now gen id s db).1 = Routes.menuCodes db
  ∧ Routes.users (Routes.putStatus now gen id s db).1 = Routes.users db
  ∧ (Routes.orders (Routes.putStatus now gen id s db).1 = Routes.orders db
     ∨ ∃ i o,
         Order.findById id (Routes.orders db) = Some (i, o)
         ∧ Routes.orders (Routes.putStatus now gen id s db).1
           = <[i:=Order.preSave gen (Order.assignStatus now s o)]>
               (Routes.orders db)).
Proof.
  unfold Routes.putStatus, Order.updateStatus, Order.update.
  destruct (Order.findById id (Routes.orders db)) as [[i o]|] eqn:Hfind;
    [|by split_and!; try left].
  destruct (Order.invalidPaths _); [|by split_and!; try left].
  case_decide; simpl; [by split_and!; try left|].
  split_and!; try done. right. by exists i, o.
Qed.

(** C3 (as amended).  The status handler refuses no transition.  For a
    stored order that meets the schema, every requested status is
    accepted whatever the current status: the order is written back with
    the new status, stamped with the time when the new status is
    Preparing, Ready or Completed, with an order id when it had none, and
    the answer is 200.  The save is refused, with 500 and the store as it
    was, when the stored order fails the schema's validation; neither
    condition looks at the current or the requested status. *)
Theorem putStatus_any_transition now gen id s (db : Routes.Db) i o :
  Order.findById id (Routes.orders db) = Some (i, o) →
  let o' := Order.preSave gen (Order.assignStatus now s o) in
  (Order.invalidPaths o = [] →
   Order.orderId o' = Order.orderId o
   ∨ Forall (λ d, Order.orderId d ≠ Order.orderId o') (Routes.orders db) →
   Routes.putStatus now gen id s db
   = (Routes.mkDb (Routes.stocks db) (Routes.menuCodes db)
        (<[i:=o']> (Routes.orders db)) (Routes.users db),
      Routes.Ok "Order status updated" o'))
  ∧ (∀ p ps, Order.invalidPaths o = p :: ps →
       Routes.putStatus now gen id s db
       = (db, Routes.ServerError "Failed to update order status"
                (ValidationError (p :: ps))))
  ∧ Order.status o' = s
  ∧ (s = Order.Preparing → Order.prepared (Order.timestamps o') = Some now)
  ∧ (s = Order.Ready → Order.ready (Order.timestamps o') = Some now)
  ∧ (s = Order.Completed → Order.completed (Order.timestamps o') = Some now)
  ∧ (Order.orderId o ≠ None → Order.orderId o ≠ Some ""%string →
     o' = Order.assignStatus now s o).
Proof.
  intros Hfind o'.
  destruct (update_cases gen i (Order.assignStatus now s o) (Routes.orders db))
    as (Hbad & _ & Hgood).
  rewrite assignStatus_invalidPaths in Hbad, Hgood.
  unfold Routes.putStatus, Order.updateStatus. rewrite Hfind.
  split_and!.
  - intros Hvalid Hfree. by rewrite (Hgood Hvalid Hfree).
  - intros p ps Hpaths. rewrite (Hbad p ps Hpaths). by destruct db.
  - unfold o'. rewrite preSave_assignStatus. done.
  - intros ->. unfold o'. by rewrite preSave_assignStatus.
  - intros ->. unfold o'. by rewrite preSave_assignStatus.
  - intros ->. unfold o'. by rewrite preSave_assignStatus.
  - intros Hsome Hfull. unfold o'.
    by rewrite preSave_assignStatus, preSave_orderId.
Qed.

(** C3, the claim as stated fails: a Completed order is moved back to
    Preparing, a transition the specification's rule forbids. *)
Lemma completed_order_reopened :
  Spec.transitionAllowed Order.Completed Order.Preparing = false
  ∧ Order.status Sample.served = Order.Completed
  ∧ Routes.putStatus 1000 "ORDXYZ123" 1 Order.Preparing Sample.db
    = (Routes.mkDb Sample.stocks Sample.menuCodes
         [Order.assignStatus 1000 Order.Preparing Sample.served]
         [Sample.regular],
       Routes.Ok "Order status updated"
         (Order.assignStatus 1000 Order.Preparing Sample.served))
  ∧ Order.status (Order.assignStatus 1000 Order.Preparing Sample.served)
    = Order.Preparing.
Proof. split_and!; reflexivity. Qed.

(** The guest's Pending order is cancelled; an order stored without its
    total is refused whatever status is asked for, and stays Pending. *)
Lemma putStatus_any_transition_sample :
  Routes.putStatus 1000 "ORDXYZ123" 2 Order.Cancelled Sample.dbAfterGuest
  = (Routes.mkDb Sample.stocks Sample.menuCodes
       [Sample.served; Order.assignStatus 1000 Order.Cancelled Sample.guestOrder]
       [Sample.regular],
     Routes.Ok "Order status updated"
       (Order.assignStatus 1000 Order.Cancelled Sample.guestOrder))
  ∧ Routes.putStatus 1000 "ORDXYZ123" 3 Order.Preparing Sample.dbUnpriced
    = (Sample.dbUnpriced,
       Routes.ServerError "Failed to update order status"
         (ValidationError ["pricing.total"%string])).
Proof.
  split.
  - apply (proj1 (putStatus_any_transition 1000 "ORDXYZ123" 2 Order.Cancelled
                    Sample.dbAfterGuest 1%nat Sample.guestOrder eq_refl)).
    + reflexivity.
    + by left.
  - apply (proj1 (proj2 (putStatus_any_transition 1000 "ORDXYZ123" 3
                           Order.Preparing Sample.dbUnpriced 1%nat Sample.large
                           eq_refl))).
    reflexivity.
Defined.

End Orders.

(** ** Order creation *)
Section Creation.

Variable addLoyaltyStamp : User.Doc → User.Doc * bool.
Variable expireCode :
  string → list MenuCode.Doc → list MenuCode.Doc * Outcome ().

Local Abbreviation create := (Routes.createOrder addLoyaltyStamp expireCode).
Local Abbreviation codeOf req := (toUpperCase (Routes.menuCode (Routes.body req))).

Lemma save_returned gen o col col' saved :
  Order.save gen o col = (col', Returned saved) →
  saved = Order.preSave gen o ∧ col' = col ++ [saved].
Proof. unfold Order.save. repeat case_match; naive_solver. Qed.

Lemma save_thrown gen o col col' e :
  Order.save gen o col = (col', Thrown e) → col' = col.
Proof. unfold Order.save. repeat case_match; naive_solver. Qed.

Lemma preSave_keeps gen o :
  Order.paymentStatus (Order.preSave gen o) = Order.paymentStatus o
  ∧ Order.cupSize (Order.preSave gen o) = Order.cupSize o
  ∧ Order._id (Order.preSave gen o) = Order._id o
  ∧ Order.pricing (Order.preSave gen o) = Order.pricing o.
Proof. unfold Order.preSave. by repeat case_match. Qed.

Lemma loyalty_keeps uid o col col' o' earned :
  Routes.loyalty addLoyaltyStamp uid o col = (col', o', earned) →
  Order.paymentStatus o' = Order.paymentStatus o
  ∧ Order.cupSize o' = Order.cupSize o
  ∧ Order._id o' = Order._id o.
Proof.
  unfold Routes.loyalty. intros Hl.
  repeat case_match; simplify_eq; done.
Qed.

(** What the block does for a signed-in customer whose document is found:
    one call of [addLoyaltyStamp], then the order and the points are
    recorded on the document, which is written back. *)
Lemma loyalty_accrues uid o col i u :
  User.findById uid col = Some (i, u) →
  let u1 := (addLoyaltyStamp u).1 in
  let earned := (addLoyaltyStamp u).2 in
  ∃ o',
    Routes.loyalty addLoyaltyStamp (Some uid) o col
    = (<[i:=User.record (Order._id o')
                (default 0 (Order.total (Order.pricing o')) / 10) u1]> col,
       o', earned)
    ∧ o' = if earned
           then (Order.calculateTotal (Order.set_isFreeDrink true o)).1
           else o.
Proof.
  intros Hfind. unfold Routes.loyalty. rewrite Hfind.
  destruct (addLoyaltyStamp u) as [u1 earned]. simpl. eauto.
Qed.

(** The shape of every run of the create handler that answers 201. *)
Lemma createOrder_created env req db db' msg o cc earned :
  create env req db = (db', Routes.Created msg o cc earned) →
  ∃ i codeDoc users' pending,
    MenuCode.findOne (codeOf req) (Routes.menuCodes db) = Some (i, codeDoc)
    ∧ ¬ MenuCode.expiresAt codeDoc < Routes.now env
    ∧ Routes.loyalty addLoyaltyStamp (Routes.user req)
        (Order.calculateTotal (Routes.newOrder env req codeDoc cc)).1
        (Routes.users db) = (users', pending, earned)
    ∧ o = Order.preSave (Routes.generatedOrderId env) pending
    ∧ db' = Routes.mkDb (Routes.stocks db)
              (expireCode (Routes.menuCode (Routes.body req))
                          (Routes.menuCodes db)).1
              (Routes.orders db ++ [o]) users'.
Proof.
  unfold Routes.createOrder. intros Hrun.
  destruct (negb _); [congruence|].
  destruct (MenuCode.findOne _ _) as [[i codeDoc]|] eqn:Hfind; [|congruence].
  destruct (MenuCode.expiresAt codeDoc <? Routes.now env) eqn:Hexp; [congruence|].
  apply Z.ltb_ge in Hexp.
  destruct (Routes.loyalty _ _ _ _) as [[users' pending] earned'] eqn:Hloyal.
  destruct (Order.save _ _ _) as [orders' [saved|e]] eqn:Hsave; [|congruence].
  apply save_returned in Hsave as [-> ->]. simplify_eq.
  exists i, codeDoc, users', pending. split_and!; try done. lia.
Qed.

(** The create handler never writes the stock collection. *)
Lemma createOrder_keeps_stock env req db :
  Routes.stocks (create env req db).1 = Routes.stocks db.
Proof.
  unfold Routes.createOrder. repeat case_match; simplify_eq; done.
Qed.

(** A run that does not answer 201 stores no order and leaves the menu
    codes as they were. *)
Lemma createOrder_failure_keeps env req db :
  isCreated (create env req db).2 = false →
  Routes.orders (create env req db).1 = Routes.orders db
  ∧ Routes.menuCodes (create env req db).1 = Routes.menuCodes db.
Proof.
  unfold Routes.createOrder.
  repeat case_match; simplify_eq; simpl; try done.
  intros _. split; [|done]. by eapply save_thrown.
Qed.

(** The two refusals of the create handler: an unknown code and an
    expired one; either leaves the store as it was. *)
Lemma createOrder_refusals env req db :
  Routes.validBody (Routes.body req) = true →
  (MenuCode.findOne (codeOf req) (Routes.menuCodes db) = None →
   create env req db = (db, Routes.BadRequest "Invalid menu code"))
  ∧ (∀ i codeDoc,
       MenuCode.findOne (codeOf req) (Routes.menuCodes db) = Some (i, codeDoc) →
       MenuCode.expiresAt codeDoc < Routes.now env →
       create env req db = (db, Routes.BadRequest "Menu code has expired")).
Proof.
  intros Hvalid. unfold Routes.createOrder. rewrite Hvalid. simpl. split.
  - by intros ->.
  - intros i codeDoc -> Hexp. by rewrite (proj2 (Z.ltb_lt _ _) Hexp).
Qed.

(** C9.  Every order the create handler stores is Paid: a 201 answer
    carries an order whose paymentStatus is Paid, appended to the orders,
    for a guest or a signed-in customer alike, and no run adds any other
    order.  For a signed-in customer whose document is found, the 201
    run has called [addLoyaltyStamp] once on it and written the result
    back with the order and the points recorded. *)
Theorem created_orders_are_paid env req db :
  (∀ db' msg o cc earned,
     create env req db = (db', Routes.Created msg o cc earned) →
     Order.paymentStatus o = Order.Paid
     ∧ Routes.orders db' = Routes.orders db ++ [o]
     ∧ ∀ uid i u,
         Routes.user req = Some uid →
         User.findById uid (Routes.users db) = Some (i, u) →
         earned = (addLoyaltyStamp u).2
         ∧ Routes.users db'
           = <[i:=User.record (Order._id o)
                    (default 0 (Order.total (Order.pricing o)) / 10)
                    (addLoyaltyStamp u).1]> (Routes.users db))
  ∧ (∀ o, o ∈ Routes.orders (create env req db).1 →
          o ∈ Routes.orders db ∨ Order.paymentStatus o = Order.Paid).
Proof.
  assert (∀ db' msg o cc earned,
     create env req db = (db', Routes.Created msg o cc earned) →
     Order.paymentStatus o = Order.Paid
     ∧ Routes.orders db' = Routes.orders db ++ [o]
     ∧ ∀ uid i u,
         Routes.user req = Some uid →
         User.findById uid (Routes.users db) = Some (i, u) →
         earned = (addLoyaltyStamp u).2
         ∧ Routes.users db'
           = <[i:=User.record (Order._id o)
                    (default 0 (Order.total (Order.pricing o)) / 10)
                    (addLoyaltyStamp u).1]> (Routes.users db)) as Hcreated.
  { intros db' msg o cc earned Hrun.
    apply createOrder_created in Hrun as
      (i & codeDoc & users' & pending & Hfind & Hexp & Hloyal & -> & ->).
    destruct (preSave_keeps (Routes.generatedOrderId env) pending)
      as (Hpaid & _ & Hid & Hprice).
    split_and!.
    - rewrite Hpaid. by apply loyalty_keeps in Hloyal as (-> & _ & _).
    - done.
    - intros uid j u Huser Hu. rewrite Huser in Hloyal.
      destruct (loyalty_accrues uid
                  (Order.calculateTotal (Routes.newOrder env req codeDoc cc)).1
                  (Routes.users db) j u Hu) as (o' & Hrun & _).
      rewrite Hrun in Hloyal. simplify_eq. simpl. by rewrite Hid, Hprice. }
  split; [exact Hcreated|].
  intros o. destruct (create env req db) as [db' r] eqn:Hrun. simpl.
  destruct r as [m|m|m e|m saved cc earned|m saved].
  1-3,5: pose proof (createOrder_failure_keeps env req db) as Hkeep;
         rewrite Hrun in Hkeep; simpl in Hkeep;
         destruct (Hkeep eq_refl) as [-> _]; by left.
  destruct (Hcreated _ _ _ _ _ eq_refl) as (Hpaid & -> & _).
  rewrite elem_of_app, list_elem_of_singleton. intros [?| ->]; eauto.
Qed.

(** C10.  The cup size of a created order is the cup size of the menu
    code the request names; a cup size supplied in the request body
    changes nothing in the run. *)
Theorem created_order_has_code_size env req db :
  (∀ db' msg o cc earned,
     create env req db = (db', Routes.Created msg o cc earned) →
     ∃ i codeDoc,
       MenuCode.findOne (codeOf req) (Routes.menuCodes db) = Some (i, codeDoc)
       ∧ Order.cupSize o = MenuCode.cupSize codeDoc)
  ∧ (∀ client, create env (withClientCupSize client req) db = create env req db).
Proof.
  split.
  - intros db' msg o cc earned Hrun.
    apply createOrder_created in Hrun as
      (i & codeDoc & users' & pending & Hfind & Hexp & Hloyal & -> & ->).
    exists i, codeDoc. split; [done|].
    destruct (preSave_keeps (Routes.generatedOrderId env) pending)
      as (_ & -> & _).
    by apply loyalty_keeps in Hloyal as (_ & -> & _).
  - intros client. by destruct req as [u [mc si tp sp cs]].
Qed.

End Creation.

(** ** The create handler on the sample store

    The handler is run with [addLoyaltyStamp] as the specification
    describes it and with [expireCode] as the sources have it. *)
Section Runs.

Local Abbreviation run :=
  (Routes.createOrder User.addLoyaltyStamp Routes.expireCode_missing).

Lemma guest_run :
  run Sample.env Sample.guest Sample.db
  = (Sample.dbAfterGuest,
     Routes.Created "Order created successfully" Sample.guestOrder "#K3F9A"
                    false).
Proof. vm_compute. reflexivity. Qed.

Lemma member_run :
  run Sample.env Sample.member Sample.db
  = (Sample.dbAfterMember,
     Routes.Created "Order created successfully" Sample.memberOrder "#K3F9A"
                    true).
Proof. vm_compute. reflexivity. Qed.

(** C1, at a failing input.  A guest orders Strawberry with Mango on the
    fresh code ABCDE.  The order is created (201) and stored, and yet the
    stock collection is what it was, Strawberry at 50 and Mango at 1, and
    so are the menu codes, ABCDE at usage count 0; the stock is as it was
    whatever the two callees outside the sources do.  The model's own
    operations, on the same store, would take the Mango to 0 and the
    usage count to 1. *)
Theorem order_created_stock_and_code_untouched :
  run Sample.env Sample.guest Sample.db
  = (Sample.dbAfterGuest,
     Routes.Created "Order created successfully" Sample.guestOrder "#K3F9A"
                    false)
  ∧ Routes.stocks Sample.dbAfterGuest = Routes.stocks Sample.db
  ∧ Stock.quantity <$> Routes.stocks Sample.dbAfterGuest !! 0%nat = Some 50
  ∧ Stock.quantity <$> Routes.stocks Sample.dbAfterGuest !! 1%nat = Some 1
  ∧ Routes.menuCodes Sample.dbAfterGuest = Routes.menuCodes Sample.db
  ∧ MenuCode.usageCount <$> Routes.menuCodes Sample.dbAfterGuest !! 0%nat
    = Some 0
  ∧ (∀ stampOf expire,
       isCreated (Routes.createOrder stampOf expire Sample.env Sample.guest
                                     Sample.db).2 = true
       ∧ Routes.stocks (Routes.createOrder stampOf expire Sample.env
                                           Sample.guest Sample.db).1
         = Sample.stocks)
  ∧ Stock.quantity <$>
      (Stock.reduceStock Stock.topping "Mango" None Sample.stocks).1 !! 1%nat
    = Some 0
  ∧ MenuCode.usageCount <$>
      (MenuCode.validateAndUse 1000 "abcde" 2 Sample.menuCodes).1 !! 0%nat
    = Some 1.
Proof.
  split_and!; try (vm_compute; reflexivity).
  intros stampOf expire. split; vm_compute; reflexivity.
Qed.

(** C4, at a failing input.  The code FULL5 has reached its usage limit
    (5 of 5) and has not expired: [canBeUsed] reports the limit and
    [validateAndUse] throws the usage-limit error, but the create handler
    answers 201 and stores the order. *)
Theorem order_created_on_exhausted_code :
  MenuCode.usageCount Sample.exhausted = MenuCode.maxUsage Sample.exhausted
  ∧ MenuCode.canBeUsed 1000 Sample.exhausted
    = MenuCode.NotValid "Code usage limit reached"
  ∧ MenuCode.validateAndUse 1000 "FULL5" 2 Sample.menuCodes
    = (Sample.menuCodes, Thrown UsageLimitReached)
  ∧ run Sample.env Sample.guestOnExhausted Sample.db
    = (Sample.dbAfterExhausted,
       Routes.Created "Order created successfully"
                      Sample.guestOrderOnExhausted "#K3F9A" false).
Proof. split_and!; vm_compute; reflexivity. Qed.

(** The member's order: Paid, and the tenth stamp recorded on the card. *)
Lemma created_orders_are_paid_sample :
  Order.paymentStatus Sample.memberOrder = Order.Paid
  ∧ true = (User.addLoyaltyStamp Sample.regular).2
  ∧ Routes.users Sample.dbAfterMember
    = <[0%nat:=User.record (Order._id Sample.memberOrder)
                 (default 0 (Order.total (Order.pricing Sample.memberOrder)) / 10)
                 (User.addLoyaltyStamp Sample.regular).1]>
        (Routes.users Sample.db).
Proof.
  destruct (proj1 (created_orders_are_paid User.addLoyaltyStamp
                     Routes.expireCode_missing Sample.env Sample.member
                     Sample.db)
              Sample.dbAfterMember "Order created successfully"%string
              Sample.memberOrder "#K3F9A"%string true)
    as (Hpaid & _ & Hloyal).
  - vm_compute. reflexivity.
  - destruct (Hloyal 7 0%nat Sample.regular) as [Hearned Husers].
    + reflexivity.
    + reflexivity.
    + split_and!; [exact Hpaid | exact Hearned | exact Husers].
Defined.

(** The guest asks for L in the body; the order has the M of ABCDE. *)
Lemma created_order_has_code_size_sample :
  ∃ i codeDoc,
    MenuCode.findOne (toUpperCase "abcde") Sample.menuCodes = Some (i, codeDoc)
    ∧ Order.cupSize Sample.guestOrder = MenuCode.cupSize codeDoc.
Proof.
  apply (proj1 (created_order_has_code_size User.addLoyaltyStamp
                  Routes.expireCode_missing Sample.env Sample.guest Sample.db)
           Sample.dbAfterGuest "Order created successfully"%string
           Sample.guestOrder "#K3F9A"%string false).
  vm_compute. reflexivity.
Defined.

End Runs.

(** * Further properties *)

(** ** Collections: what a write leaves alone *)
Section Frames.
Context {A : Type} (P : A → Prop) `{!∀ x, Decision (P x)}.

Lemma find_is_Some (l : list A) : is_Some (list_find P l) ↔ Exists P l.
Proof.
  rewrite Exists_exists. split.
  - intros [[i x] Hf]. apply list_find_Some in Hf as (Hi & Px & _).
    exists x. split; [by eapply list_elem_of_lookup_2|done].
  - intros (x & Hx & Px). by eapply list_find_elem_of.
Qed.

Lemma find_none (l : list A) : list_find P l = None ↔ ¬ Exists P l.
Proof.
  rewrite <-find_is_Some, <-eq_None_not_Some. done.
Qed.

(** A write that neither removes nor adds a match changes no lookup. *)
Lemma find_frame_write (l : list A) i y :
  (∀ x, l !! i = Some x → ¬ P x) → ¬ P y →
  list_find P (<[i:=y]> l) = list_find P l.
Proof.
  revert i. induction l as [|x l IH]; intros i Hold Hy; [done|].
  destruct i as [|i]; simpl.
  - specialize (Hold x eq_refl).
    destruct (decide (P y)), (decide (P x)); try done.
  - destruct (decide (P x)); [done|]. by rewrite IH.
Qed.

Lemma find_frame_append (l : list A) y :
  ¬ P y → list_find P (l ++ [y]) = list_find P l.
Proof.
  intros Hy. induction l as [|x l IH]; simpl.
  - by destruct (decide (P y)).
  - destruct (decide (P x)); [done|]. by rewrite IH.
Qed.

Lemma find_append_new (l : list A) y :
  list_find P l = None → P y → list_find P (l ++ [y]) = Some (length l, y).
Proof.
  intros Hnone Py. induction l as [|x l IH]; simpl in *.
  - by destruct (decide (P y)).
  - destruct (decide (P x)); [done|].
    destruct (list_find P l) as [[j z]|]; [done|]. by rewrite IH.
Qed.

Lemma find_append_old (l : list A) y i x :
  list_find P l = Some (i, x) → list_find P (l ++ [y]) = Some (i, x).
Proof. apply list_find_app_l. Qed.

End Frames.

(** ** Stock ledger: restocking, setting, availability *)
Section StockOperations.
Implicit Types (col : list Stock.Doc) (s d : Stock.Doc).

Lemma stock_key_dec ty nm ty' nm' :
  (ty', nm') ≠ (ty, nm) →
  ∀ d, Stock.itemType d = ty ∧ Stock.name d = nm →
       ¬ (Stock.itemType d = ty' ∧ Stock.name d = nm').
Proof. intros Hne d [<- <-] [<- <-]. done. Qed.

(** X2.  Restocking an item that is in the ledger and then decrementing
    the same amount gives back the quantity it had; only the restock date
    of that item has changed. *)
Theorem addStock_then_reduceStock now ty nm amount col i s :
  Stock.findOne ty nm col = Some (i, s) →
  0 ≤ Stock.quantity s →
  0 ≤ Stock.quantity s + amount →
  let restored :=
    Stock.mkDoc (Stock.itemType s) (Stock.name s) (Stock.quantity s)
                (Stock.unit s) (Stock.reorderLevel s) (Stock.isActive s) now in
  Stock.reduceStock ty nm (Some amount) (Stock.addStock now ty nm amount col).1
  = (<[i:=restored]> col, Returned (Some restored)).
Proof.
  intros Hfind Hq Hsum. unfold Stock.addStock, Stock.save. rewrite Hfind. simpl.
  rewrite (proj2 (Z.ltb_ge _ _) Hsum). simpl.
  set (s1 := Stock.mkDoc _ _ (Stock.quantity s + amount) _ _ _ now).
  assert (Stock.findOne ty nm (<[i:=s1]> col) = Some (i, s1)) as Hfind1.
  { apply find_after_write with (x := s); [done|].
    by apply find_position in Hfind as [_ ?]. }
  destruct (reduceStock_enough ty nm (Some amount) _ i s1 Hfind1) as [-> _].
  { simpl. lia. }
  simpl. rewrite list_insert_insert_eq.
  replace (Stock.quantity s + amount - amount) with (Stock.quantity s) by lia.
  done.
Qed.

(** Mango stands at 1 in the sample ledger: four are added, four taken. *)
Lemma addStock_then_reduceStock_sample :
  Stock.reduceStock Stock.topping "Mango" (Some 4)
    (Stock.addStock 1000 Stock.topping "Mango" 4 Sample.stocks).1
  = (<[1%nat:=Stock.mkDoc Stock.topping "Mango" 1 "cups" 20 true 1000]>
       Sample.stocks,
     Returned (Some (Stock.mkDoc Stock.topping "Mango" 1 "cups" 20 true 1000))).
Proof.
  apply (addStock_then_reduceStock 1000 Stock.topping "Mango" 4 Sample.stocks
           1%nat (Stock.mkDoc Stock.topping "Mango" 1 "cups" 20 true 0)).
  - reflexivity.
  - simpl. lia.
  - simpl. lia.
Defined.

(** X3.  Restocking an item that is not in the ledger creates it, when
    the name is not empty and the amount not negative: at the end of the
    collection, with the amount as its quantity, unit cups, reorder level
    20 and active; it is then the item found under its type and name, it
    is available exactly when the amount is positive, and no other lookup
    changes.  An empty name or a negative amount is refused by the
    validators, which name the failing paths, and nothing is stored. *)
Theorem addStock_creates now ty nm amount col :
  Stock.findOne ty nm col = None →
  let d := Stock.mkDoc ty nm amount "cups" 20 true now in
  (nm ≠ ""%string → 0 ≤ amount →
   Stock.addStock now ty nm amount col = (col ++ [d], Returned d)
   ∧ Stock.findOne ty nm (col ++ [d]) = Some (length col, d)
   ∧ Stock.isAvailable ty nm (col ++ [d]) = Some (0 <? amount)
   ∧ ∀ ty' nm', (ty', nm') ≠ (ty, nm) →
       Stock.findOne ty' nm' (col ++ [d]) = Stock.findOne ty' nm' col)
  ∧ (nm ≠ ""%string → amount < 0 →
     Stock.addStock now ty nm amount col
     = (col, Thrown (ValidationError ["quantity"%string])))
  ∧ (nm = ""%string → 0 ≤ amount →
     Stock.addStock now ty nm amount col
     = (col, Thrown (ValidationError ["name"%string])))
  ∧ (nm = ""%string → amount < 0 →
     Stock.addStock now ty nm amount col
     = (col, Thrown (ValidationError ["name"; "quantity"]%string))).
Proof.
  intros Hnone d.
  unfold Stock.addStock, Stock.create, Stock.invalidPaths. rewrite Hnone.
  simpl. split_and!.
  - intros Hnm Hpos.
    rewrite (decide_False (P := nm = _)), (proj2 (Z.ltb_ge _ _) Hpos) by done.
    simpl.
    assert (Stock.findOne ty nm (col ++ [d]) = Some (length col, d)) as Hnew.
    { by apply find_append_new. }
    split_and!; try done.
    + unfold Stock.isAvailable. by rewrite Hnew.
    + intros ty' nm' Hne. apply find_frame_append.
      apply (stock_key_dec ty nm ty' nm' Hne). done.
  - intros Hnm Hneg.
    by rewrite (decide_False (P := nm = _)), (proj2 (Z.ltb_lt _ _) Hneg).
  - intros Hnm Hpos.
    by rewrite (decide_True (P := nm = _)), (proj2 (Z.ltb_ge _ _) Hpos).
  - intros Hnm Hneg.
    by rewrite (decide_True (P := nm = _)), (proj2 (Z.ltb_lt _ _) Hneg).
Qed.

(** Banana is not in the sample ledger; neither is an item without a
    name, which cannot be created. *)
Lemma addStock_creates_sample :
  Stock.addStock 1000 Stock.topping "Banana" 30 Sample.stocks
  = (Sample.stocks ++ [Stock.mkDoc Stock.topping "Banana" 30 "cups" 20 true 1000],
     Returned (Stock.mkDoc Stock.topping "Banana" 30 "cups" 20 true 1000))
  ∧ Stock.addStock 1000 Stock.topping "Banana" (-1) Sample.stocks
    = (Sample.stocks, Thrown (ValidationError ["quantity"%string]))
  ∧ Stock.addStock 1000 Stock.topping "" 30 Sample.stocks
    = (Sample.stocks, Thrown (ValidationError ["name"%string])).
Proof.
  destruct (addStock_creates 1000 Stock.topping "Banana" 30 Sample.stocks)
    as (Hok & _); [reflexivity|].
  destruct (addStock_creates 1000 Stock.topping "Banana" (-1) Sample.stocks)
    as (_ & Hbad & _); [reflexivity|].
  destruct (addStock_creates 1000 Stock.topping "" 30 Sample.stocks)
    as (_ & _ & Hname & _); [reflexivity|].
  split_and!.
  - apply Hok; [done|lia].
  - apply Hbad; [done|lia].
  - apply Hname; [done|lia].
Defined.

End StockOperations.

Section StockSettings.
Implicit Types (col : list Stock.Doc) (s d : Stock.Doc).

(** X4.  For a name that is not empty and a quantity that is not
    negative, [setStock] succeeds, and the item then found under the type
    and name has the quantity that was set and the activity flag that was
    given, and no other lookup has changed.  A reorder level of 0 is
    stored as 20 when the item is created and as 0 when it exists.  A
    negative quantity is refused, and so is the creation of an item with
    an empty name; nothing is stored then. *)
Theorem setStock_then_findOne now ty nm q level active col :
  (nm ≠ ""%string → 0 ≤ q →
   ∃ i d,
     Stock.setStock now ty nm q level active col
     = ((Stock.setStock now ty nm q level active col).1, Returned d)
     ∧ Stock.findOne ty nm (Stock.setStock now ty nm q level active col).1
       = Some (i, d)
     ∧ Stock.quantity d = q
     ∧ (∀ b, active = Some b → Stock.isActive d = b)
     ∧ (level = Some 0 →
        Stock.reorderLevel d
        = if Stock.findOne ty nm col is Some _ then 0 else 20)
     ∧ ∀ ty' nm', (ty', nm') ≠ (ty, nm) →
         Stock.findOne ty' nm' (Stock.setStock now ty nm q level active col).1
         = Stock.findOne ty' nm' col)
  ∧ (nm ≠ ""%string → q < 0 →
     Stock.setStock now ty nm q level active col
     = (col, Thrown (ValidationError ["quantity"%string])))
  ∧ (nm = ""%string → Stock.findOne ty nm col = None →
     ∃ paths,
       Stock.setStock now ty nm q level active col
       = (col, Thrown (ValidationError ("name"%string :: paths)))).
Proof.
  unfold Stock.setStock, Stock.create, Stock.invalidPaths, Stock.save.
  destruct (Stock.findOne ty nm col) as [[i s]|] eqn:Hfind; simpl; split_and!.
  - intros _ Hq. rewrite (proj2 (Z.ltb_ge _ _) Hq). simpl.
    pose proof (find_position _ _ _ _ Hfind) as [Hi Hkey].
    eexists i, _. split_and!; try done.
    + apply find_after_write with (x := s); [done|]. exact Hkey.
    + by intros b ->.
    + by intros ->.
    + intros ty' nm' Hne. apply find_frame_write.
      * intros x Hx. rewrite Hi in Hx. injection Hx as <-.
        by apply (stock_key_dec ty nm ty' nm' Hne).
      * by apply (stock_key_dec ty nm ty' nm' Hne).
  - intros _ Hq. by rewrite (proj2 (Z.ltb_lt _ _) Hq).
  - done.
  - intros Hnm Hq.
    rewrite (decide_False (P := nm = _)), (proj2 (Z.ltb_ge _ _) Hq) by done.
    simpl.
    eexists (length col), _. split_and!; try done.
    + by apply find_append_new.
    + by intros b ->.
    + by intros ->.
    + intros ty' nm' Hne. apply find_frame_append.
      by apply (stock_key_dec ty nm ty' nm' Hne).
  - intros Hnm Hq.
    by rewrite (decide_False (P := nm = _)), (proj2 (Z.ltb_lt _ _) Hq).
  - intros Hnm _. rewrite (decide_True (P := nm = _)) by done. simpl.
    by eexists.
Qed.

(** Mango is set to 7, inactive, with reorder level 0. *)
Lemma setStock_then_findOne_sample :
  ∃ i d,
    Stock.setStock 1000 Stock.topping "Mango" 7 (Some 0) (Some false)
                   Sample.stocks
    = ((Stock.setStock 1000 Stock.topping "Mango" 7 (Some 0) (Some false)
                       Sample.stocks).1, Returned d)
    ∧ Stock.findOne Stock.topping "Mango"
        (Stock.setStock 1000 Stock.topping "Mango" 7 (Some 0) (Some false)
                        Sample.stocks).1 = Some (i, d)
    ∧ Stock.quantity d = 7
    ∧ (∀ b, Some false = Some b → Stock.isActive d = b)
    ∧ (Some 0 = Some 0 →
       Stock.reorderLevel d
       = if Stock.findOne Stock.topping "Mango" Sample.stocks is Some _
         then 0 else 20)
    ∧ ∀ ty' nm', (ty', nm') ≠ (Stock.topping, "Mango"%string) →
        Stock.findOne ty' nm'
          (Stock.setStock 1000 Stock.topping "Mango" 7 (Some 0) (Some false)
                          Sample.stocks).1
        = Stock.findOne ty' nm' Sample.stocks.
Proof.
  apply (proj1 (setStock_then_findOne 1000 Stock.topping "Mango" 7 (Some 0)
                  (Some false) Sample.stocks)).
  - done.
  - lia.
Defined.

#[local] Instance byName_total : Total Stock.byName.
Proof. intros a b. apply String.leb_total. Qed.

(** X5.  [getAvailableItems] lists exactly the documents of the item type
    that are active with a positive quantity, each as often as it is
    stored, sorted by name.  When [isAvailable] answers true the item is in
    that list; it answers null exactly when no document has the type and
    name; and when at most one document has them, every listed item is
    one [isAvailable] answers true for. *)
Theorem available_items ty col :
  (∀ d, d ∈ Stock.getAvailableItems ty col
        ↔ d ∈ col ∧ Stock.itemType d = ty ∧ Stock.isActive d = true
          ∧ 0 < Stock.quantity d)
  ∧ Stock.getAvailableItems ty col
    ≡ₚ filter (λ d, Stock.itemType d = ty ∧ Stock.isActive d = true
                    ∧ 0 < Stock.quantity d) col
  ∧ Sorted Stock.byName (Stock.getAvailableItems ty col)
  ∧ (∀ nm, Stock.isAvailable ty nm col = Some true →
           ∃ d, d ∈ Stock.getAvailableItems ty col ∧ Stock.name d = nm)
  ∧ (∀ nm, Stock.isAvailable ty nm col = None
           ↔ ∀ d, d ∈ col → ¬ (Stock.itemType d = ty ∧ Stock.name d = nm))
  ∧ (∀ d, d ∈ Stock.getAvailableItems ty col →
          (∀ d', d' ∈ col → Stock.itemType d' = ty →
                 Stock.name d' = Stock.name d → d' = d) →
          Stock.isAvailable ty (Stock.name d) col = Some true).
Proof.
  assert (∀ d, d ∈ Stock.getAvailableItems ty col
        ↔ d ∈ col ∧ Stock.itemType d = ty ∧ Stock.isActive d = true
          ∧ 0 < Stock.quantity d) as Hmem.
  { intros d. unfold Stock.getAvailableItems.
    rewrite merge_sort_Permutation, list_elem_of_filter. tauto. }
  split_and!.
  - exact Hmem.
  - apply merge_sort_Permutation.
  - apply Sorted_merge_sort, _.
  - intros nm. unfold Stock.isAvailable.
    destruct (Stock.findOne ty nm col) as [[i s]|] eqn:Hfind; [|done].
    intros [= Hok]. apply andb_true_iff in Hok as [Hact Hq].
    apply Z.ltb_lt in Hq.
    apply find_position in Hfind as [Hi [Hty Hnm]].
    exists s. split; [|done]. apply Hmem.
    split_and!; try done. by eapply list_elem_of_lookup_2.
  - intros nm. unfold Stock.isAvailable, Stock.findOne.
    destruct (list_find _ col) as [[i s]|] eqn:Hfind.
    + split; [done|]. intros Hno.
      apply find_position in Hfind as [Hi Hkey].
      destruct (Hno s); [by eapply list_elem_of_lookup_2|done].
    + split; [|done]. intros _. apply find_none in Hfind.
      intros d Hd Hkey. apply Hfind, Exists_exists. eauto.
  - intros d Hd Huniq. apply Hmem in Hd as (Hin & Hty & Hact & Hq).
    unfold Stock.isAvailable.
    destruct (Stock.findOne ty (Stock.name d) col) as [[i s]|] eqn:Hfind.
    + apply find_position in Hfind as [Hi [Hty' Hnm]].
      rewrite (Huniq s); [|by eapply list_elem_of_lookup_2|done..].
      rewrite Hact. simpl. by rewrite (proj2 (Z.ltb_lt _ _) Hq).
    + apply find_none in Hfind. destruct Hfind.
      apply Exists_exists. eauto.
Qed.

(** In the sample ledger the toppings on offer are Apple and Mango, in
    that order. *)
Lemma available_items_sample :
  Stock.getAvailableItems Stock.topping Sample.stocks
  = [Stock.mkDoc Stock.topping "Apple" 20 "cups" 20 true 0;
     Stock.mkDoc Stock.topping "Mango" 1 "cups" 20 true 0]
  ∧ ∃ d, d ∈ Stock.getAvailableItems Stock.topping Sample.stocks
         ∧ Stock.name d = "Mango"%string.
Proof.
  split; [reflexivity|].
  apply (proj1 (proj2 (proj2 (proj2
           (available_items Stock.topping Sample.stocks)))) "Mango"%string).
  reflexivity.
Defined.

Lemma decrements_succeed ty nm (n : nat) : ∀ col i s,
  Stock.findOne ty nm col = Some (i, s) →
  Z.of_nat n ≤ Stock.quantity s →
  ∃ col' rs s',
    decrements ty nm n col = (col', rs)
    ∧ length rs = n
    ∧ Stock.findOne ty nm col' = Some (i, s')
    ∧ Stock.quantity s' = Stock.quantity s - Z.of_nat n
    ∧ length col' = length col
    ∧ ∀ j r, rs !! j = Some r →
        ∃ d, r = Returned (Some d)
             ∧ Stock.quantity d = Stock.quantity s - Z.of_nat j - 1.
Proof.
  induction n as [|n IH]; intros col i s Hfind Hq.
  - exists col, [], s. simpl. split_and!; try done. lia.
  - simpl.
    destruct (reduceStock_enough ty nm None col i s Hfind) as [-> _].
    { simpl. lia. }
    set (s1 := Stock.set_quantity _ s).
    assert (Stock.findOne ty nm (<[i:=s1]> col) = Some (i, s1)) as Hfind1.
    { apply find_after_write with (x := s); [done|].
      by apply find_position in Hfind as [_ ?]. }
    destruct (IH _ i s1 Hfind1) as
      (col' & rs & s' & -> & Hlen & Hfind' & Hq' & Hsize & Hrs).
    { simpl. lia. }
    exists col', (Returned (Some s1) :: rs), s'. simpl in *.
    split_and!; try done; try lia.
    + by rewrite Hsize, length_insert.
    + intros [|j] r Hj; simpl in Hj.
      * injection Hj as <-. eexists. split; [done|]. simpl. lia.
      * destruct (Hrs j r Hj) as (d & -> & Hd). exists d. split; [done|]. lia.
Qed.

(** X6.  An item that stands at quantity n serves exactly n decrements of
    one unit: the k-th returns the item with quantity n - k, the item ends
    at 0, and the next decrement throws the insufficient-stock error,
    reporting 0 available, and changes nothing. *)
Theorem decrements_until_empty ty nm (n : nat) col i s :
  Stock.findOne ty nm col = Some (i, s) →
  Stock.quantity s = Z.of_nat n →
  ∃ col' rs s',
    decrements ty nm n col = (col', rs)
    ∧ length rs = n
    ∧ (∀ j r, rs !! j = Some r →
         ∃ d, r = Returned (Some d)
              ∧ Stock.quantity d = Z.of_nat n - Z.of_nat j - 1)
    ∧ Stock.findOne ty nm col' = Some (i, s')
    ∧ Stock.quantity s' = 0
    ∧ Stock.reduceStock ty nm None col'
      = (col', Thrown (InsufficientStock nm 0)).
Proof.
  intros Hfind Hq.
  destruct (decrements_succeed ty nm n col i s Hfind) as
    (col' & rs & s' & Hrun & Hlen & Hfind' & Hq' & _ & Hrs); [lia|].
  exists col', rs, s'. split_and!; try done; try lia.
  - intros j r Hj. destruct (Hrs j r Hj) as (d & -> & Hd).
    exists d. split; [done|]. lia.
  - rewrite (reduceStock_insufficient ty nm None col' i s' Hfind').
    + do 3 f_equal. lia.
    + simpl. lia.
Qed.

(** The one Mango of the sample ledger. *)
Lemma decrements_until_empty_sample :
  ∃ col' rs s',
    decrements Stock.topping "Mango" 1 Sample.stocks = (col', rs)
    ∧ length rs = 1%nat
    ∧ (∀ j r, rs !! j = Some r →
         ∃ d, r = Returned (Some d)
              ∧ Stock.quantity d = Z.of_nat 1 - Z.of_nat j - 1)
    ∧ Stock.findOne Stock.topping "Mango" col' = Some (1%nat, s')
    ∧ Stock.quantity s' = 0
    ∧ Stock.reduceStock Stock.topping "Mango" None col'
      = (col', Thrown (InsufficientStock "Mango" 0)).
Proof.
  apply (decrements_until_empty Stock.topping "Mango" 1 Sample.stocks 1%nat
           (Stock.mkDoc Stock.topping "Mango" 1 "cups" 20 true 0)).
  - reflexivity.
  - reflexivity.
Defined.

End StockSettings.

(** ** Stock routes *)
Section StockAdmin.
Implicit Types (col : list Stock.Doc) (s d : Stock.Doc).

(** X7.  The adjust handler never stores a negative quantity: a ledger of
    non-negative quantities stays one; an adjustment that would take the
    item below 0 is answered 400 and an unknown id 404, both leaving the
    ledger as it was; otherwise the item, and only it, is written back
    with the adjusted quantity. *)
Theorem adjust_never_negative now id a col :
  (Forall (λ d, 0 ≤ Stock.quantity d) col →
   Forall (λ d, 0 ≤ Stock.quantity d) (StockRoutes.adjust now id a col).1)
  ∧ (col !! id = None →
     StockRoutes.adjust now id a col
     = (col, StockRoutes.NotFound "Stock item not found"))
  ∧ (∀ s, col !! id = Some s → Stock.quantity s + a < 0 →
       StockRoutes.adjust now id a col
       = (col, StockRoutes.BadRequest "Stock cannot be negative"))
  ∧ (∀ s, col !! id = Some s → 0 ≤ Stock.quantity s + a →
       ∃ s', (StockRoutes.adjust now id a col).1 = <[id:=s']> col
             ∧ Stock.quantity s' = Stock.quantity s + a
             ∧ Stock.itemType s' = Stock.itemType s
             ∧ Stock.name s' = Stock.name s).
Proof.
  unfold StockRoutes.adjust, StockRoutes.findById, Stock.save. split_and!.
  - intros Hcol. destruct (col !! id) as [s|]; [|done]. simpl.
    destruct (Stock.quantity s + a <? 0) eqn:Hneg; [done|]. simpl.
    apply Z.ltb_ge in Hneg. by apply Forall_insert.
  - by intros ->.
  - intros s -> Hneg. by rewrite (proj2 (Z.ltb_lt _ _) Hneg).
  - intros s -> Hok. simpl. rewrite (proj2 (Z.ltb_ge _ _) Hok). simpl.
    eexists. split_and!; [reflexivity|done..].
Qed.

(** Mango stands at 1: taking 2 is refused, taking 1 is not. *)
Lemma adjust_never_negative_sample :
  StockRoutes.adjust 1000 1 (-2) Sample.stocks
  = (Sample.stocks, StockRoutes.BadRequest "Stock cannot be negative")
  ∧ ∃ s', (StockRoutes.adjust 1000 1 (-1) Sample.stocks).1
          = <[1%nat:=s']> Sample.stocks
          ∧ Stock.quantity s' = 1 + -1
          ∧ Stock.itemType s' = Stock.topping
          ∧ Stock.name s' = "Mango"%string.
Proof.
  split.
  - apply (proj1 (proj2 (proj2 (adjust_never_negative 1000 1 (-2) Sample.stocks)))
             (Stock.mkDoc Stock.topping "Mango" 1 "cups" 20 true 0)).
    + reflexivity.
    + simpl. lia.
  - apply (proj2 (proj2 (proj2 (adjust_never_negative 1000 1 (-1) Sample.stocks)))
             (Stock.mkDoc Stock.topping "Mango" 1 "cups" 20 true 0)).
    + reflexivity.
    + simpl. lia.
Defined.

(** X8.  Adjusting an item by an amount and then by the opposite amount
    gives back its quantity, whenever the item starts non-negative and the
    first adjustment is accepted; no other document changes. *)
Theorem adjust_round_trip now now' id a col s :
  col !! id = Some s →
  0 ≤ Stock.quantity s →
  0 ≤ Stock.quantity s + a →
  let col2 :=
    (StockRoutes.adjust now' id (- a) (StockRoutes.adjust now id a col).1).1 in
  Stock.quantity <$> col2 !! id = Some (Stock.quantity s)
  ∧ length col2 = length col
  ∧ ∀ j, j ≠ id → col2 !! j = col !! j.
Proof.
  intros Hs Hq Hsum.
  assert (id < length col)%nat as Hlt by by eapply lookup_lt_Some.
  unfold StockRoutes.adjust, StockRoutes.findById, Stock.save.
  rewrite Hs. simpl. rewrite (proj2 (Z.ltb_ge _ _) Hsum). simpl.
  rewrite list_lookup_insert_eq by done. simpl.
  rewrite (proj2 (Z.ltb_ge _ _)) by lia. simpl.
  rewrite list_insert_insert_eq. split_and!.
  - rewrite list_lookup_insert_eq by done. simpl. f_equal. lia.
  - by rewrite length_insert.
  - intros j Hj. by rewrite list_lookup_insert_ne.
Qed.

(** Strawberry, at position 0 with 50, plus 5 and minus 5. *)
Lemma adjust_round_trip_sample :
  Stock.quantity <$>
    (StockRoutes.adjust 1001 0 (- 5)
       (StockRoutes.adjust 1000 0 5 Sample.stocks).1).1 !! 0%nat
  = Some 50.
Proof.
  apply (adjust_round_trip 1000 1001 0 5 Sample.stocks
           (Stock.mkDoc Stock.flavor "Strawberry" 50 "cups" 20 true 0)).
  - reflexivity.
  - simpl. lia.
  - simpl. lia.
Defined.

(** One ledger grows into another: every document keeps its position,
    type and name, and its quantity does not go down. *)
Local Definition grows col col' : Prop :=
  ∀ i d, col !! i = Some d →
    ∃ d', col' !! i = Some d'
          ∧ Stock.itemType d' = Stock.itemType d
          ∧ Stock.name d' = Stock.name d
          ∧ Stock.quantity d ≤ Stock.quantity d'.

Lemma grows_refl col : grows col col.
Proof. intros i d Hd. exists d. split_and!; try done. Qed.

Lemma grows_trans col1 col2 col3 :
  grows col1 col2 → grows col2 col3 → grows col1 col3.
Proof.
  intros H12 H23 i d Hd.
  destruct (H12 i d Hd) as (d2 & Hd2 & Hty & Hnm & Hq).
  destruct (H23 i d2 Hd2) as (d3 & Hd3 & Hty' & Hnm' & Hq').
  exists d3. split_and!; [done|congruence|congruence|lia].
Qed.

Lemma grows_found col col' ty nm :
  grows col col' →
  is_Some (Stock.findOne ty nm col) → is_Some (Stock.findOne ty nm col').
Proof.
  intros Hg. unfold Stock.findOne. rewrite !find_is_Some, !Exists_exists.
  intros (d & Hd & Hty & Hnm).
  apply list_elem_of_lookup_1 in Hd as [i Hi].
  destruct (Hg i d Hi) as (d' & Hd' & Hty' & Hnm' & _).
  exists d'. split; [by eapply list_elem_of_lookup_2|]. split; congruence.
Qed.

Lemma initializeLoop_runs now items : ∀ col t col' t',
  StockRoutes.initializeLoop now items col t = (col', Returned t') →
  grows col col'
  ∧ Forall (λ item, is_Some (Stock.findOne item.1.1.1 item.1.1.2 col')) items
  ∧ (length col' + StockRoutes.created t
     = length col + StockRoutes.created t')%nat.
Proof.
  induction items as [|[[[ty nm] q] level] rest IH]; intros col t col' t' Hrun.
  - simpl in Hrun. injection Hrun as <- <-.
    split_and!; [apply grows_refl|constructor|done].
  - simpl in Hrun.
    destruct (Stock.findOne ty nm col) as [[i s]|] eqn:Hfind.
    + pose proof (find_position _ _ _ _ Hfind) as [Hi [Hty Hnm]].
      destruct (Stock.quantity s <=? Stock.reorderLevel s) eqn:Hlow.
      * apply Z.leb_le in Hlow. unfold Stock.save in Hrun. simpl in Hrun.
        destruct (Stock.quantity s + Stock.reorderLevel s <? 0) eqn:Hneg;
          [done|].
        apply Z.ltb_ge in Hneg.
        apply IH in Hrun as (Hg & Hall & Hlen).
        rewrite length_insert in Hlen. simpl in Hlen.
        assert (grows col col') as Hg'.
        { eapply grows_trans; [|exact Hg]. intros j d Hd.
          destruct (decide (j = i)) as [->|Hne].
          - rewrite Hi in Hd. injection Hd as <-. eexists.
            rewrite list_lookup_insert_eq by by eapply lookup_lt_Some.
            split_and!; try done. simpl. lia.
          - exists d. rewrite list_lookup_insert_ne by done.
            split_and!; try done. }
        split_and!; [done| |done].
        constructor; [|done]. simpl.
        eapply grows_found; [exact Hg'|]. by rewrite Hfind.
      * apply IH in Hrun as (Hg & Hall & Hlen).
        split_and!; [done| |done].
        constructor; [|done]. simpl.
        eapply grows_found; [exact Hg|]. by rewrite Hfind.
    + unfold Stock.create in Hrun.
      destruct (Stock.invalidPaths _); [|done].
      apply IH in Hrun as (Hg & Hall & Hlen).
      rewrite length_app in Hlen. simpl in Hlen.
      split_and!.
      * eapply grows_trans; [|exact Hg]. intros j d Hd.
        exists d. rewrite lookup_app_l by by eapply lookup_lt_Some.
        split_and!; try done.
      * constructor; [|done]. simpl.
        eapply grows_found; [exact Hg|].
        unfold Stock.findOne. rewrite (find_append_new _ col); done.
      * lia.
Qed.

(** X9.  When the initialize handler answers with its tally, each of the
    eight default items is in the ledger; the ledger has grown by exactly
    the number of items reported created; and every document that was
    there keeps its position, type and name, with a quantity that has not
    gone down. *)
Theorem initialize_completes now col col' created restocked added :
  StockRoutes.initialize now col
  = (col', StockRoutes.Initialized created restocked added) →
  (∀ ty nm q level, (ty, nm, q, level) ∈ StockRoutes.defaultStock →
     is_Some (Stock.findOne ty nm col'))
  ∧ length col' = (length col + created)%nat
  ∧ ∀ i d, col !! i = Some d →
      ∃ d', col' !! i = Some d'
            ∧ Stock.itemType d' = Stock.itemType d
            ∧ Stock.name d' = Stock.name d
            ∧ Stock.quantity d ≤ Stock.quantity d'.
Proof.
  unfold StockRoutes.initialize. intros Hrun.
  destruct (StockRoutes.initializeLoop _ _ _ _) as [col1 [t|e]] eqn:Hloop;
    [|done].
  injection Hrun as -> <- <- <-.
  apply initializeLoop_runs in Hloop as (Hg & Hall & Hlen).
  split_and!.
  - intros ty nm q level Hin.
    rewrite Forall_forall in Hall. exact (Hall _ Hin).
  - simpl in Hlen. lia.
  - exact Hg.
Qed.

(** On the sample ledger six items are created and Apple, at its reorder
    level, is topped up by 20. *)
Lemma initialize_completes_sample :
  length (StockRoutes.initialize 1000 Sample.stocks).1 = (3 + 6)%nat
  ∧ is_Some (Stock.findOne Stock.topping "Cherry"
               (StockRoutes.initialize 1000 Sample.stocks).1).
Proof.
  destruct (initialize_completes 1000 Sample.stocks
              (StockRoutes.initialize 1000 Sample.stocks).1 6 1 20)
    as (Hall & Hlen & _).
  - vm_compute. reflexivity.
  - split; [exact Hlen|].
    apply (Hall Stock.topping "Cherry"%string 50 20).
    unfold StockRoutes.defaultStock. repeat constructor.
Defined.

End StockAdmin.

(** ** Menu codes: validation, issue, cleanup *)
Section MenuCodeLife.
Implicit Types (col : list MenuCode.Doc) (m : MenuCode.Doc).

(** X10.  The validate handler and [validateAndUse] agree.  When the
    handler accepts a code with r uses remaining, r is positive, a
    redemption at the same time succeeds, and the handler then reports
    r - 1 uses remaining, or the usage limit when r was 1.  When it
    rejects a code, a redemption throws the error of the same reason and
    changes nothing. *)
Theorem validate_then_use now c oid col :
  (∀ size r mx,
     MenuCodeRoutes.validate now c col = MenuCodeRoutes.Accepted size r mx →
     0 < r
     ∧ ∃ m', MenuCode.validateAndUse now c oid col
             = ((MenuCode.validateAndUse now c oid col).1, Returned m')
             ∧ MenuCode.cupSize m' = size
             ∧ MenuCodeRoutes.validate now c
                 (MenuCode.validateAndUse now c oid col).1
               = if r =? 1
                 then MenuCodeRoutes.Rejected "Code usage limit reached"
                 else MenuCodeRoutes.Accepted size (r - 1) mx)
  ∧ (∀ msg,
       MenuCodeRoutes.validate now c col = MenuCodeRoutes.Rejected msg →
       ∃ e, MenuCode.validateAndUse now c oid col = (col, Thrown e)
            ∧ ((msg = "Invalid code"%string ∧ e = InvalidCode)
               ∨ (msg = "Code has expired"%string ∧ e = CodeHasExpired)
               ∨ (msg = "Code usage limit reached"%string
                  ∧ e = UsageLimitReached))).
Proof.
  unfold MenuCodeRoutes.validate, MenuCode.canBeUsed.
  destruct (MenuCode.findOne (toUpperCase c) col) as [[i m]|] eqn:Hfind.
  - destruct (MenuCode.expiresAt m <? now) eqn:Hexp.
    { split; [done|]. intros msg [= <-].
      exists CodeHasExpired. unfold MenuCode.validateAndUse.
      rewrite Hfind, Hexp. eauto. }
    destruct (MenuCode.maxUsage m <=? MenuCode.usageCount m) eqn:Hfull.
    { split; [done|]. intros msg [= <-].
      exists UsageLimitReached. unfold MenuCode.validateAndUse.
      rewrite Hfind, Hexp, Hfull. eauto 6. }
    split; [|done]. intros size r mx [= <- <- <-].
    apply Z.ltb_ge in Hexp. apply Z.leb_gt in Hfull.
    split; [lia|].
    rewrite (validateAndUse_redeems now c oid col i m) by (done || lia).
    simpl. exists (MenuCode.use oid now m). split_and!; try done.
    assert (MenuCode.findOne (toUpperCase c) (<[i:=MenuCode.use oid now m]> col)
            = Some (i, MenuCode.use oid now m)) as ->.
    { apply find_after_write with (x := m); [done|].
      by apply find_position in Hfind as [_ ?]. }
    simpl. rewrite (proj2 (Z.ltb_ge _ _)) by lia.
    destruct (Z.eqb_spec (MenuCode.maxUsage m - MenuCode.usageCount m) 1).
    + by rewrite (proj2 (Z.leb_le _ _)) by lia.
    + rewrite (proj2 (Z.leb_gt _ _)) by lia. f_equal. lia.
  - split; [done|]. intros msg [= <-].
    exists InvalidCode. unfold MenuCode.validateAndUse. rewrite Hfind. eauto.
Qed.

(** ABCDE, fresh, has 5 uses; after one redemption it has 4. *)
Lemma validate_then_use_sample :
  0 < 5
  ∧ ∃ m', MenuCode.validateAndUse 1000 "abcde" 21 Sample.menuCodes
          = ((MenuCode.validateAndUse 1000 "abcde" 21 Sample.menuCodes).1,
             Returned m')
          ∧ MenuCode.cupSize m' = cupM
          ∧ MenuCodeRoutes.validate 1000 "abcde"
              (MenuCode.validateAndUse 1000 "abcde" 21 Sample.menuCodes).1
            = if 5 =? 1
              then MenuCodeRoutes.Rejected "Code usage limit reached"
              else MenuCodeRoutes.Accepted cupM (5 - 1) 5.
Proof.
  apply (proj1 (validate_then_use 1000 "abcde" 21 Sample.menuCodes) cupM 5 5).
  reflexivity.
Defined.

(** X11.  Redeeming a code writes one document only: the collection keeps
    its length and its codes, position by position, so unique codes stay
    unique; every other code is found as before and every document of
    another code is still stored, unchanged. *)
Theorem validateAndUse_touches_one now c oid col :
  length (MenuCode.validateAndUse now c oid col).1 = length col
  ∧ MenuCode.code <$> (MenuCode.validateAndUse now c oid col).1
    = MenuCode.code <$> col
  ∧ (∀ c', c' ≠ toUpperCase c →
       MenuCode.findOne c' (MenuCode.validateAndUse now c oid col).1
       = MenuCode.findOne c' col)
  ∧ (∀ m, m ∈ col → MenuCode.code m ≠ toUpperCase c →
       m ∈ (MenuCode.validateAndUse now c oid col).1).
Proof.
  unfold MenuCode.validateAndUse.
  destruct (MenuCode.findOne (toUpperCase c) col) as [[i m]|] eqn:Hfind;
    [|done].
  destruct (MenuCode.expiresAt m <? now); [done|].
  destruct (MenuCode.maxUsage m <=? MenuCode.usageCount m); [done|].
  simpl. pose proof (find_position _ _ _ _ Hfind) as [Hi Hcode].
  split_and!.
  - apply length_insert.
  - rewrite list_fmap_insert. simpl. apply list_insert_id.
    by rewrite list_lookup_fmap, Hi.
  - intros c' Hne. apply find_frame_write.
    + intros x Hx. rewrite Hi in Hx. injection Hx as <-. congruence.
    + simpl. congruence.
  - intros m0 Hin Hne. apply list_elem_of_lookup_1 in Hin as [j Hj].
    apply list_elem_of_lookup_2 with j.
    rewrite list_lookup_insert_ne; [done|].
    intros <-. rewrite Hi in Hj. injection Hj as <-. done.
Qed.

(** Redeeming ABCDE leaves FULL5 as it is. *)
Lemma validateAndUse_touches_one_sample :
  Sample.exhausted ∈ (MenuCode.validateAndUse 1000 "abcde" 21 Sample.menuCodes).1.
Proof.
  apply (proj2 (proj2 (proj2
           (validateAndUse_touches_one 1000 "abcde" 21 Sample.menuCodes)))).
  - unfold Sample.menuCodes. repeat constructor.
  - vm_compute. discriminate.
Defined.

Lemma filter_twice {A} (P : A → Prop) `{!∀ x, Decision (P x)} (l : list A) :
  filter P (filter P l) = filter P l.
Proof.
  induction l as [|x l IH]; [done|]. rewrite filter_cons.
  destruct (decide (P x)) as [Px|Px]; [|done].
  by rewrite filter_cons_True, IH.
Qed.

Lemma filter_out {A} (P : A → Prop) `{!∀ x, Decision (P x)} (l : list A) :
  filter P (filter (λ x, ¬ P x) l) = [].
Proof.
  induction l as [|x l IH]; [done|]. rewrite filter_cons.
  destruct (decide (¬ P x)) as [Px|Px]; [|done].
  by rewrite filter_cons_False.
Qed.

(** X12.  A cleanup never removes a code that can still be used, and a
    second cleanup at the same time finds nothing left to remove: it
    returns 0 and the collection as it is. *)
Theorem cleanupExpired_settles now col :
  (∀ m r, m ∈ col → MenuCode.canBeUsed now m = MenuCode.Valid r →
          m ∈ (MenuCode.cleanupExpired now col).1)
  ∧ MenuCode.cleanupExpired now (MenuCode.cleanupExpired now col).1
    = ((MenuCode.cleanupExpired now col).1, 0%nat).
Proof.
  unfold MenuCode.cleanupExpired. simpl. split.
  - intros m r Hin Hok. apply list_elem_of_filter. split; [|done].
    unfold MenuCode.canBeUsed in Hok. unfold MenuCode.unusedExpired.
    destruct (MenuCode.expiresAt m <? now) eqn:Hexp; [done|].
    apply Z.ltb_ge in Hexp. lia.
  - by rewrite filter_twice, filter_out.
Qed.

Lemma cleanupExpired_settles_sample :
  Sample.fresh ∈ (MenuCode.cleanupExpired 1000 Sample.menuCodes).1.
Proof.
  apply (proj1 (cleanupExpired_settles 1000 Sample.menuCodes) Sample.fresh 5).
  - unfold Sample.menuCodes. repeat constructor.
  - reflexivity.
Defined.

End MenuCodeLife.

Section MenuCodeIssue.
Implicit Types (col : list MenuCode.Doc) (m : MenuCode.Doc) (rand : nat → nat).

Lemma generateLoop_result rand col : ∀ left attempts,
  match MenuCode.generateLoop rand col attempts left with
  | MenuCode.Code c =>
      ∃ a, (attempts ≤ a < attempts + left)%nat
           ∧ c = MenuCode.candidate rand a
           ∧ MenuCode.findOne c col = None
           ∧ ∀ b, (attempts ≤ b < a)%nat →
               is_Some (MenuCode.findOne (MenuCode.candidate rand b) col)
  | MenuCode.Exhausted =>
      ∀ b, (attempts ≤ b < attempts + left)%nat →
        is_Some (MenuCode.findOne (MenuCode.candidate rand b) col)
  end.
Proof.
  induction left as [|left IH]; intros attempts; simpl.
  - intros b Hb. lia.
  - destruct (MenuCode.findOne (MenuCode.candidate rand attempts) col)
      as [found|] eqn:Hfind.
    + specialize (IH (S attempts)).
      destruct (MenuCode.generateLoop rand col (S attempts) left) as [c|].
      * destruct IH as (a & Ha & -> & Hfree & Htaken).
        exists a. split_and!; try done; try lia.
        intros b Hb. destruct (decide (b = attempts)) as [->|Hne].
        -- by rewrite Hfind.
        -- apply Htaken. lia.
      * intros b Hb. destruct (decide (b = attempts)) as [->|Hne].
        -- by rewrite Hfind.
        -- apply IH. lia.
    + exists attempts. split_and!; try done; try lia.
Qed.

Lemma chars_upper n :
  (n < 36)%nat →
  ∃ ch, String.get n MenuCode.chars = Some ch ∧ upper_ascii ch = ch.
Proof.
  intros Hn.
  do 36 (destruct n as [|n]; [eexists; split; reflexivity|]). lia.
Qed.

Lemma toUpperCase_app s t :
  toUpperCase (s ++ t) = (toUpperCase s ++ toUpperCase t)%string.
Proof. induction s as [|ch s IH]; simpl; [done|]. by rewrite IH. Qed.

Lemma length_app_one s ch :
  String.length (s ++ String ch "") = S (String.length s).
Proof. induction s as [|c s IH]; simpl; [done|]. by rewrite IH. Qed.

Lemma append_char_shape code n :
  (n < 36)%nat →
  String.length (MenuCode.append_char code n) = S (String.length code)
  ∧ (toUpperCase code = code →
     toUpperCase (MenuCode.append_char code n) = MenuCode.append_char code n).
Proof.
  intros Hn. destruct (chars_upper n Hn) as (ch & Hget & Hup).
  unfold MenuCode.append_char. rewrite Hget. split.
  - apply length_app_one.
  - intros Hcode. rewrite toUpperCase_app, Hcode. simpl. by rewrite Hup.
Qed.

Lemma foldl_append_char_shape ns : ∀ code,
  Forall (λ n, (n < 36)%nat) ns →
  toUpperCase code = code →
  String.length (foldl MenuCode.append_char code ns)
  = (String.length code + length ns)%nat
  ∧ toUpperCase (foldl MenuCode.append_char code ns)
    = foldl MenuCode.append_char code ns.
Proof.
  induction ns as [|n ns IH]; intros code Hns Hcode; simpl.
  - split; [lia|done].
  - apply Forall_cons in Hns as [Hn Hns].
    destruct (append_char_shape code n Hn) as [Hlen Hup].
    destruct (IH (MenuCode.append_char code n) Hns (Hup Hcode)) as [-> ->].
    split; [lia|done].
Qed.

Lemma candidate_shape rand a :
  (∀ k, (rand k < 36)%nat) →
  String.length (MenuCode.candidate rand a) = 5%nat
  ∧ toUpperCase (MenuCode.candidate rand a) = MenuCode.candidate rand a.
Proof.
  intros Hrand. unfold MenuCode.candidate.
  destruct (foldl_append_char_shape
              (map (λ i, rand (5 * a + i)%nat) [0; 1; 2; 3; 4]%nat) ""%string)
    as [Hlen Hup]; [|done|].
  - simpl. repeat (constructor; [apply Hrand|]). constructor.
  - split; [exact Hlen|exact Hup].
Qed.

(** The outcome of the generation loop, read off its first hundred
    candidates. *)
Lemma generateCode_result rand col :
  (∀ c, MenuCode.generateCode rand col = MenuCode.Code c →
     MenuCode.findOne c col = None
     ∧ ∃ a, (a < 100)%nat ∧ c = MenuCode.candidate rand a
            ∧ ∀ b, (b < a)%nat →
                is_Some (MenuCode.findOne (MenuCode.candidate rand b) col))
  ∧ (MenuCode.generateCode rand col = MenuCode.Exhausted
     ↔ ∀ b, (b < 100)%nat →
         is_Some (MenuCode.findOne (MenuCode.candidate rand b) col))
  ∧ (∀ c, (∀ k, (rand k < 36)%nat) →
          MenuCode.generateCode rand col = MenuCode.Code c →
          String.length c = 5%nat ∧ toUpperCase c = c).
Proof.
  unfold MenuCode.generateCode, MenuCode.maxAttempts.
  pose proof (generateLoop_result rand col 100 0) as Hres.
  destruct (MenuCode.generateLoop rand col 0 100) as [c0|].
  - destruct Hres as (a & Ha & -> & Hfree & Htaken). split_and!.
    + intros c [= <-]. split; [done|]. exists a. split_and!; try done; try lia.
      intros b Hb. apply Htaken. lia.
    + split; [done|]. intros Hall.
      destruct (Hall a) as [x Hx]; [lia|]. congruence.
    + intros c Hrand [= <-]. by apply candidate_shape.
  - split_and!; try done. split; [|done]. intros _ b Hb. apply Hres. lia.
Qed.

(** X13.  [generateCode] returns the first of its candidates, among at
    most 100, that no stored code has, so the code it returns is not in
    the collection; it gives up exactly when all 100 candidates are
    taken.  With every draw below the length of the alphabet, the code has
    five characters and is its own upper-case form. *)
Theorem generateCode_fresh rand col :
  (∀ c, MenuCode.generateCode rand col = MenuCode.Code c →
     MenuCode.findOne c col = None
     ∧ ∃ a, (a < 100)%nat ∧ c = MenuCode.candidate rand a
            ∧ ∀ b, (b < a)%nat →
                is_Some (MenuCode.findOne (MenuCode.candidate rand b) col))
  ∧ (MenuCode.generateCode rand col = MenuCode.Exhausted
     ↔ ∀ b, (b < 100)%nat →
         is_Some (MenuCode.findOne (MenuCode.candidate rand b) col))
  ∧ (∀ c, (∀ k, (rand k < 36)%nat) →
          MenuCode.generateCode rand col = MenuCode.Code c →
          String.length c = 5%nat ∧ toUpperCase c = c).
Proof. exact (generateCode_result rand col). Qed.

(** ABCDE is taken in the sample collection; FGHIJ is the next
    candidate. *)
Lemma generateCode_fresh_sample :
  (MenuCode.findOne "FGHIJ" Sample.menuCodes = None
   ∧ ∃ a, (a < 100)%nat ∧ "FGHIJ"%string = MenuCode.candidate Sample.draws a
          ∧ ∀ b, (b < a)%nat →
              is_Some (MenuCode.findOne (MenuCode.candidate Sample.draws b)
                                        Sample.menuCodes))
  ∧ String.length "FGHIJ" = 5%nat ∧ toUpperCase "FGHIJ" = "FGHIJ"%string.
Proof.
  destruct (generateCode_fresh Sample.draws Sample.menuCodes)
    as (Hfresh & _ & Hshape).
  split.
  - apply (Hfresh "FGHIJ"%string). reflexivity.
  - apply (Hshape "FGHIJ"%string).
    + intros k. unfold Sample.draws. apply Nat.mod_upper_bound. lia.
    + reflexivity.
Defined.

(** X14.  [createCode] keeps codes unique.  With every draw below the
    length of the alphabet it never fails at the save; the document it
    issues is appended with a code no stored code had, the requested
    size, no use and a limit of 5, expiring 24 hours later; the validate
    handler accepts that code, in any letter case, with 5 uses
    remaining. *)
Theorem createCode_issues rand now size by_ col :
  (NoDup (MenuCode.code <$> col) →
   NoDup (MenuCode.code <$> (MenuCode.createCode rand now size by_ col).1))
  ∧ ((∀ k, (rand k < 36)%nat) →
     (∀ e, (MenuCode.createCode rand now size by_ col).2 ≠ MenuCode.NotSaved e)
     ∧ ∀ d, (MenuCode.createCode rand now size by_ col).2 = MenuCode.IssuedDoc d →
         (MenuCode.createCode rand now size by_ col).1 = col ++ [d]
         ∧ MenuCode.findOne (MenuCode.code d) col = None
         ∧ MenuCode.cupSize d = size
         ∧ MenuCode.usageCount d = 0
         ∧ MenuCode.maxUsage d = 5
         ∧ MenuCode.expiresAt d = now + 86400000
         ∧ ∀ c, toUpperCase c = MenuCode.code d →
             MenuCodeRoutes.validate now c (col ++ [d])
             = MenuCodeRoutes.Accepted size 5 5).
Proof.
  unfold MenuCode.createCode, MenuCode.insert.
  destruct (generateCode_result rand col) as (Hfresh & _ & Hshape).
  destruct (MenuCode.generateCode rand col) as [c0|]; [|by split].
  destruct (Hfresh c0 eq_refl) as [Hfree _]. split.
  - intros Hdup. case_decide as Hex; simpl; [done|].
    rewrite fmap_app. apply NoDup_app. split_and!; [done| |apply NoDup_singleton].
    intros x Hx. simpl. rewrite list_elem_of_singleton. intros ->.
    apply Hex, Exists_exists.
    apply list_elem_of_fmap in Hx as (m & Hcode & Hm). eauto.
  - intros Hrand. destruct (Hshape c0 Hrand eq_refl) as [_ Hup].
    rewrite Hup. case_decide as Hex; simpl.
    { exfalso. apply (proj1 (find_none _ col) Hfree). exact Hex. }
    split; [done|]. intros d [= <-]. simpl.
    split_and!; try done; try lia.
    intros c Hc. unfold MenuCodeRoutes.validate. rewrite Hc.
    unfold MenuCode.findOne in *.
    rewrite (find_append_new _ col) by done.
    unfold MenuCode.canBeUsed. simpl.
    by rewrite (proj2 (Z.ltb_ge _ _)) by lia.
Qed.

(** FGHIJ is issued for size L on the sample collection and validates in
    lower case. *)
Lemma createCode_issues_sample :
  (MenuCode.createCode Sample.draws 1000 cupL 99 Sample.menuCodes).1
  = Sample.menuCodes ++ [Sample.issued]
  ∧ MenuCodeRoutes.validate 1000 "fghij" (Sample.menuCodes ++ [Sample.issued])
    = MenuCodeRoutes.Accepted cupL 5 5.
Proof.
  destruct (proj2 (createCode_issues Sample.draws 1000 cupL 99 Sample.menuCodes))
    as [_ Hissued].
  - intros k. unfold Sample.draws. apply Nat.mod_upper_bound. lia.
  - destruct (Hissued Sample.issued) as (Hcol & _ & _ & _ & _ & _ & Hvalid).
    + reflexivity.
    + split; [exact Hcol|]. apply Hvalid. reflexivity.
Defined.

End MenuCodeIssue.

Section MenuCodeStats.
Implicit Types (col : list MenuCode.Doc) (m : MenuCode.Doc).

Lemma by_size_lengths col :
  (length (filter (λ m, MenuCode.cupSize m = cupS) col)
   + length (filter (λ m, MenuCode.cupSize m = cupM) col)
   + length (filter (λ m, MenuCode.cupSize m = cupL) col))%nat
  = length col.
Proof.
  induction col as [|m col IH]; [done|].
  rewrite !filter_cons. destruct (MenuCode.cupSize m);
    repeat case_decide; try done; simpl; rewrite <-IH; lia.
Qed.

Lemma by_size_usage col :
  foldr Z.add 0 (MenuCode.usageCount <$> filter (λ m, MenuCode.cupSize m = cupS) col)
  + foldr Z.add 0 (MenuCode.usageCount <$> filter (λ m, MenuCode.cupSize m = cupM) col)
  + foldr Z.add 0 (MenuCode.usageCount <$> filter (λ m, MenuCode.cupSize m = cupL) col)
  = foldr Z.add 0 (MenuCode.usageCount <$> col).
Proof.
  induction col as [|m col IH]; [done|].
  rewrite !filter_cons. destruct (MenuCode.cupSize m);
    repeat case_decide; try done; rewrite !fmap_cons; cbn [foldr];
    rewrite <-IH; lia.
Qed.

Lemma group_reads size col :
  let g := filter (λ m, MenuCode.cupSize m = size) col in
  from_option (λ x, x.1.2) 0%nat (MenuCodeRoutes.group size col) = length g
  ∧ from_option (λ x, x.2) 0 (MenuCodeRoutes.group size col)
    = foldr Z.add 0 (MenuCode.usageCount <$> g).
Proof.
  unfold MenuCodeRoutes.group.
  by destruct (filter (λ m, MenuCode.cupSize m = size) col).
Qed.

(** X15.  In the statistics of the menu codes, with usage counts that are
    not negative, every code is counted in exactly one of unused,
    partially used and fully used, so the three add up to the total; the
    expired count is at most unused plus partially used; and the groups by
    cup size add up to the total in their counts and to the sum of all
    usage counts in their usage. *)
Theorem stats_add_up now col :
  Forall (λ m, 0 ≤ MenuCode.usageCount m) col →
  let st := MenuCodeRoutes.stats now col in
  MenuCodeRoutes.total st
  = (MenuCodeRoutes.unused st + MenuCodeRoutes.partiallyUsed st
     + MenuCodeRoutes.fullyUsed st)%nat
  ∧ (MenuCodeRoutes.expired st
     ≤ MenuCodeRoutes.unused st + MenuCodeRoutes.partiallyUsed st)%nat
  ∧ foldr (λ g acc, (g.1.2 + acc)%nat) 0%nat (MenuCodeRoutes.byCupSize st)
    = MenuCodeRoutes.total st
  ∧ foldr (λ g acc, g.2 + acc) 0 (MenuCodeRoutes.byCupSize st)
    = foldr Z.add 0 (MenuCode.usageCount <$> col).
Proof.
  intros Hcol. simpl. split_and!.
  - induction Hcol as [|m col Hm Hcol IH]; [done|].
    rewrite !filter_cons. simpl. repeat case_decide; simpl; lia.
  - induction Hcol as [|m col Hm Hcol IH]; [done|].
    rewrite !filter_cons. repeat case_decide; simpl; lia.
  - rewrite <-(by_size_lengths col).
    destruct (group_reads cupS col) as [<- _].
    destruct (group_reads cupM col) as [<- _].
    destruct (group_reads cupL col) as [<- _].
    destruct (MenuCodeRoutes.group cupS col) as [[[? ?] ?]|],
             (MenuCodeRoutes.group cupM col) as [[[? ?] ?]|],
             (MenuCodeRoutes.group cupL col) as [[[? ?] ?]|]; simpl; lia.
  - rewrite <-(by_size_usage col).
    destruct (group_reads cupS col) as [_ <-].
    destruct (group_reads cupM col) as [_ <-].
    destruct (group_reads cupL col) as [_ <-].
    destruct (MenuCodeRoutes.group cupS col) as [[[? ?] ?]|],
             (MenuCodeRoutes.group cupM col) as [[[? ?] ?]|],
             (MenuCodeRoutes.group cupL col) as [[[? ?] ?]|]; simpl; lia.
Qed.

(** The four sample codes: two unused, one partially used, one fully
    used; one of size M, one of size L, two of size S. *)
Lemma stats_add_up_sample :
  MenuCodeRoutes.stats 1000 Sample.menuCodes
  = MenuCodeRoutes.mkStats 4 1 1 2 2 [(cupS, 2%nat, 2); (cupM, 1%nat, 0);
                                       (cupL, 1%nat, 5)]
  ∧ MenuCodeRoutes.total (MenuCodeRoutes.stats 1000 Sample.menuCodes)
    = (MenuCodeRoutes.unused (MenuCodeRoutes.stats 1000%Z Sample.menuCodes)
       + MenuCodeRoutes.partiallyUsed
           (MenuCodeRoutes.stats 1000%Z Sample.menuCodes)
       + MenuCodeRoutes.fullyUsed
           (MenuCodeRoutes.stats 1000%Z Sample.menuCodes))%nat.
Proof.
  split; [reflexivity|].
  apply (stats_add_up 1000 Sample.menuCodes).
  unfold Sample.menuCodes. repeat constructor; simpl; lia.
Defined.

End MenuCodeStats.

(** ** Order creation and status: what is stored *)

Lemma save_checks gen o col col' saved :
  Order.save gen o col = (col', Returned saved) →
  Order.invalidPaths o = []
  ∧ ¬ Exists (λ d, Order.customerCode d = Order.customerCode saved) col.
Proof.
  unfold Order.save. intros Hsave.
  destruct (Order.invalidPaths o); [|done].
  repeat case_decide; simplify_eq. done.
Qed.

Section Stored.

Variable addLoyaltyStamp : User.Doc → User.Doc * bool.
Variable expireCode :
  string → list MenuCode.Doc → list MenuCode.Doc * Outcome ().

Local Abbreviation create := (Routes.createOrder addLoyaltyStamp expireCode).
Local Abbreviation codeOf req := (toUpperCase (Routes.menuCode (Routes.body req))).

Lemma loyalty_order uid o col col' o' earned :
  Routes.loyalty addLoyaltyStamp uid o col = (col', o', earned) →
  o' = if earned
       then (Order.calculateTotal (Order.set_isFreeDrink true o)).1
       else o.
Proof.
  unfold Routes.loyalty. intros Hl.
  repeat case_match; simplify_eq; done.
Qed.

(** Every 201 run in full: the code found, the order as it was built,
    and the save that accepted it. *)
Lemma createOrder_created_full env req db db' msg o cc earned :
  create env req db = (db', Routes.Created msg o cc earned) →
  cc = ("#" ++ toUpperCase (Routes.random36 env))%string
  ∧ Routes.validBody (Routes.body req) = true
  ∧ ∃ i codeDoc pending,
      MenuCode.findOne (codeOf req) (Routes.menuCodes db) = Some (i, codeDoc)
      ∧ pending
        = (if earned
           then (Order.calculateTotal
                   (Order.set_isFreeDrink true
                      (Order.calculateTotal
                         (Routes.newOrder env req codeDoc cc)).1)).1
           else (Order.calculateTotal (Routes.newOrder env req codeDoc cc)).1)
      ∧ o = Order.preSave (Routes.generatedOrderId env) pending
      ∧ Order.invalidPaths pending = []
      ∧ Routes.orders db' = Routes.orders db ++ [o]
      ∧ ¬ Exists (λ d, Order.customerCode d = Order.customerCode o)
                 (Routes.orders db).
Proof.
  unfold Routes.createOrder. intros Hrun.
  destruct (Routes.validBody _) eqn:Hvalid; simpl in Hrun; [|congruence].
  destruct (MenuCode.findOne _ _) as [[i codeDoc]|] eqn:Hfind; [|congruence].
  destruct (MenuCode.expiresAt codeDoc <? Routes.now env); [congruence|].
  destruct (Routes.loyalty _ _ _ _) as [[users' pending] earned'] eqn:Hloyal.
  destruct (Order.save _ _ _) as [orders' [saved|e]] eqn:Hsave; [|congruence].
  pose proof (save_checks _ _ _ _ _ Hsave) as [Hpaths Hfree].
  apply (save_returned expireCode) in Hsave as [-> ->]. simplify_eq.
  apply loyalty_order in Hloyal.
  split_and!; try done. exists i, codeDoc, pending. split_and!; done.
Qed.

Lemma lengths_ascii s :
  asciiText s = true →
  characters s = String.length s ∧ codeUnits s = String.length s.
Proof.
  induction s as [|c s IH]; [done|]. simpl.
  intros [Hc Hs]%andb_prop. destruct (IH Hs) as [-> ->].
  unfold codeUnitsOf. rewrite Hc. done.
Qed.

(** On ASCII text the validators of POST /create compare the number of
    bytes. *)
Lemma validBody_ascii (b : Routes.Body) :
  asciiText (Routes.menuCode b) = true →
  (∀ t, Routes.specialInstructions b = Some t → asciiText t = true) →
  Routes.validBody b = true
  ↔ String.length (Routes.menuCode b) = 5%nat
    ∧ ∀ t, Routes.specialInstructions b = Some t → (String.length t ≤ 200)%nat.
Proof.
  intros Hcode Hnote. unfold Routes.validBody.
  rewrite (proj1 (lengths_ascii _ Hcode)).
  rewrite !andb_true_iff, negb_true_iff, Nat.eqb_eq.
  destruct (Routes.specialInstructions b) as [t|] eqn:Ht.
  - rewrite (proj1 (lengths_ascii t (Hnote t eq_refl))), Nat.leb_le. split.
    + intros [[_ Hfive] Hmax]. split; [done|]. by intros ? [= <-].
    + intros [Hfive Hmax]. split_and!; [|done|by apply Hmax].
      apply String.eqb_neq. intros Hempty. by rewrite Hempty in Hfive.
  - split.
    + intros [[_ Hfive] _]. split; [done|]. by intros ? [=].
    + intros [Hfive _]. split_and!; [|done|done].
      apply String.eqb_neq. intros Hempty. by rewrite Hempty in Hfive.
Qed.

(** X16.  No two stored orders ever share a tracking code: when the
    customer codes of the stored orders are distinct, they are distinct
    after any run of the create handler and after any run of the status
    handler; a run whose generated customer code is already stored
    creates no order. *)
Theorem tracking_codes_stay_unique env req db :
  NoDup (Order.customerCode <$> Routes.orders db) →
  NoDup (Order.customerCode <$> Routes.orders (create env req db).1)
  ∧ (∀ now gen id s,
       NoDup (Order.customerCode
                <$> Routes.orders (Routes.putStatus now gen id s db).1))
  ∧ (∀ o, o ∈ Routes.orders db →
          Order.customerCode o = ("#" ++ toUpperCase (Routes.random36 env))%string →
          isCreated (create env req db).2 = false).
Proof.
  intros Hdup. split_and!.
  - destruct (create env req db) as [db' r] eqn:Hrun.
    destruct (isCreated r) eqn:Hr.
    + destruct r as [| | |msg o cc earned|]; try done.
      apply createOrder_created_full in Hrun as
        (_ & _ & i & codeDoc & pending & _ & _ & _ & _ & Hord & Hfree).
      simpl. rewrite Hord, fmap_app. apply NoDup_app.
      split_and!; [done| |apply NoDup_singleton].
      intros x Hx. simpl. rewrite list_elem_of_singleton. intros ->.
      apply Hfree, Exists_exists.
      apply list_elem_of_fmap in Hx as (d & Hcode & Hd). eauto.
    + pose proof (createOrder_failure_keeps addLoyaltyStamp expireCode
                    env req db) as Hkeep.
      rewrite Hrun in Hkeep. destruct (Hkeep Hr) as [Hord _].
      simpl in *. by rewrite Hord.
  - intros now gen id s.
    destruct (putStatus_store now gen id s db)
      as (_ & _ & _ & [->|(i & o & Hfind & ->)]); [done|].
    rewrite list_fmap_insert, preSave_customerCode. simpl.
    rewrite list_insert_id; [done|].
    apply find_position in Hfind as [Hi _]. by rewrite list_lookup_fmap, Hi.
  - intros o Hin Hcode.
    destruct (create env req db) as [db' r] eqn:Hrun.
    destruct r as [| | |msg saved cc earned|]; try done.
    apply createOrder_created_full in Hrun as
      (-> & _ & i & codeDoc & pending & _ & -> & -> & _ & _ & Hfree).
    exfalso. apply Hfree, Exists_exists. exists o. split; [done|].
    rewrite Hcode. unfold Order.preSave.
    by destruct earned.
Qed.

(** The fields of a created order, read off the run. *)
Lemma created_order_fields env req db db' msg o cc earned :
  create env req db = (db', Routes.Created msg o cc earned) →
  ∃ i codeDoc,
    MenuCode.findOne (codeOf req) (Routes.menuCodes db) = Some (i, codeDoc)
    ∧ Order.menuCode o = MenuCode.code codeDoc
    ∧ Order.status o = Order.Pending
    ∧ Order.orderId o = Some (Routes.generatedOrderId env)
    ∧ Order.customerCode o = cc
    ∧ cc = ("#" ++ toUpperCase (Routes.random36 env))%string
    ∧ Order.customerId o = Routes.user req
    ∧ Order.shavedIce o = Routes.shavedIce (Routes.body req)
    ∧ Order.toppings o = Routes.toppings (Routes.body req)
    ∧ Order.flavor (Order.shavedIce o) ∈ Order.flavorEnum
    ∧ Forall (λ t, Order.name t ∈ Order.toppingEnum) (Order.toppings o)
    ∧ Order.isFreeDrink o = earned
    ∧ Order.cupSize o = MenuCode.cupSize codeDoc
    ∧ Order.pricing o
      = Order.mkPricing 60 (Order.sizePrices (MenuCode.cupSize codeDoc))
          (10 * Z.of_nat (length (Order.toppings o)))
          (Some (if earned then 0
                 else 60 + Order.sizePrices (MenuCode.cupSize codeDoc)
                      + 10 * Z.of_nat (length (Order.toppings o)))).
Proof.
  intros Hrun. apply createOrder_created_full in Hrun as
    (Hcc & _ & i & codeDoc & pending & Hfind & Hpend & -> & Hpaths & _ & _).
  exists i, codeDoc.
  pose proof (find_position _ _ _ _ Hfind) as [_ Hcode].
  assert (Order.flavor (Routes.shavedIce (Routes.body req)) ∈ Order.flavorEnum
          ∧ Forall (λ t, Order.name t ∈ Order.toppingEnum)
                   (Routes.toppings (Routes.body req))) as [Hflavor Htops].
  { unfold Order.invalidPaths in Hpaths.
    assert (Order.shavedIce pending = Routes.shavedIce (Routes.body req)
            ∧ Order.toppings pending = Routes.toppings (Routes.body req))
      as [Hs Ht] by (rewrite Hpend; by destruct earned).
    rewrite Hs, Ht in Hpaths.
    repeat case_decide; try done;
      repeat (apply app_eq_nil in Hpaths as [? Hpaths]); done. }
  rewrite Hpend. unfold Order.preSave.
  destruct earned; simpl; rewrite ?num_or_zero; unfold num_or; simpl;
    (split_and!; try done; try congruence);
    by rewrite (Z.mul_comm (Z.of_nat _) 10).
Qed.

(** X17.  A created order is built from the code and the request alone:
    it carries the code as stored (upper case), status Pending, the
    generated order id and customer code, the requester, the requested
    flavor and toppings, all of them values the schema accepts, and the
    price 60 plus the surcharge of the code's size plus 10 per topping,
    or 0 when the customer earned a free drink. *)
Theorem created_order_contents env req db db' msg o cc earned :
  create env req db = (db', Routes.Created msg o cc earned) →
  ∃ i codeDoc,
    MenuCode.findOne (codeOf req) (Routes.menuCodes db) = Some (i, codeDoc)
    ∧ Order.menuCode o = MenuCode.code codeDoc
    ∧ Order.status o = Order.Pending
    ∧ Order.orderId o = Some (Routes.generatedOrderId env)
    ∧ Order.customerCode o = cc
    ∧ cc = ("#" ++ toUpperCase (Routes.random36 env))%string
    ∧ Order.customerId o = Routes.user req
    ∧ Order.shavedIce o = Routes.shavedIce (Routes.body req)
    ∧ Order.toppings o = Routes.toppings (Routes.body req)
    ∧ Order.flavor (Order.shavedIce o) ∈ Order.flavorEnum
    ∧ Forall (λ t, Order.name t ∈ Order.toppingEnum) (Order.toppings o)
    ∧ Order.isFreeDrink o = earned
    ∧ Order.pricing o
      = Order.mkPricing 60 (Order.sizePrices (MenuCode.cupSize codeDoc))
          (10 * Z.of_nat (length (Order.toppings o)))
          (Some (if earned then 0
                 else 60 + Order.sizePrices (MenuCode.cupSize codeDoc)
                      + 10 * Z.of_nat (length (Order.toppings o)))).
Proof.
  intros Hrun.
  destruct (created_order_fields env req db db' msg o cc earned Hrun)
    as (i & codeDoc & ? & ? & ? & ? & ? & ? & ? & ? & ? & ? & ? & ? & _ & ?).
  exists i, codeDoc. split_and!; done.
Qed.

(** X18.  A signed-in customer's stamp is recorded even when the order is
    then refused: for a valid code and a flavor outside the schema's list,
    the handler answers 500 with the validation error, stores no order
    and changes neither stock nor codes, but the customer's document has
    already been written back with the stamp and the order recorded. *)
Theorem refused_order_keeps_stamp env req db j codeDoc uid i u :
  Routes.validBody (Routes.body req) = true →
  MenuCode.findOne (codeOf req) (Routes.menuCodes db) = Some (j, codeDoc) →
  ¬ MenuCode.expiresAt codeDoc < Routes.now env →
  Routes.user req = Some uid →
  User.findById uid (Routes.users db) = Some (i, u) →
  Order.flavor (Routes.shavedIce (Routes.body req)) ∉ Order.flavorEnum →
  ∃ paths pts,
    create env req db
    = (Routes.mkDb (Routes.stocks db) (Routes.menuCodes db) (Routes.orders db)
         (<[i:=User.record (Routes.newObjectId env) pts (addLoyaltyStamp u).1]>
            (Routes.users db)),
       Routes.ServerError "Failed to save order" (ValidationError paths)).
Proof.
  intros Hvalid Hfind Hexp Huser Hu Hflavor.
  unfold Routes.createOrder. rewrite Hvalid, Hfind. simpl.
  rewrite (proj2 (Z.ltb_ge _ _)) by lia. rewrite Huser.
  match goal with
  | |- context [Routes.loyalty _ _ ?o _] =>
      destruct (loyalty_accrues addLoyaltyStamp uid o (Routes.users db) i u Hu)
        as (pending & -> & Hpending)
  end.
  assert (Order._id pending = Routes.newObjectId env
          ∧ Order.shavedIce pending = Routes.shavedIce (Routes.body req))
    as [Hid Hice].
  { rewrite Hpending. by destruct (addLoyaltyStamp u).2. }
  assert ("shavedIce.flavor"%string ∈ Order.invalidPaths pending) as Hin.
  { unfold Order.invalidPaths. rewrite Hice, (decide_False (P := _ ∈ _)) by done.
    rewrite !elem_of_app. right. right. left. by apply list_elem_of_singleton. }
  unfold Order.save.
  destruct (Order.invalidPaths pending) as [|p paths] eqn:Hpaths.
  { by apply elem_of_nil in Hin. }
  rewrite Hid. eauto.
Qed.

(** X19.  The create handler answers 400 with one of three messages, and
    a 400 leaves the whole store as it was.  For a request in ASCII text
    the three cases are: 'Validation failed' when the menu code is not
    five characters long or the special instructions exceed 200;
    'Invalid menu code' when the lengths fit and no stored code equals
    the code in upper case; 'Menu code has expired' when the lengths fit
    and the code found has expired. *)
Theorem createOrder_bad_requests env req db :
  (∀ msg, (create env req db).2 = Routes.BadRequest msg →
          (create env req db).1 = db
          ∧ msg ∈ ["Validation failed"; "Invalid menu code";
                   "Menu code has expired"]%string)
  ∧ (asciiText (Routes.menuCode (Routes.body req)) = true →
     (∀ t, Routes.specialInstructions (Routes.body req) = Some t →
           asciiText t = true) →
     let fits :=
       String.length (Routes.menuCode (Routes.body req)) = 5%nat
       ∧ ∀ t, Routes.specialInstructions (Routes.body req) = Some t →
              (String.length t ≤ 200)%nat in
     ((create env req db).2 = Routes.BadRequest "Validation failed" ↔ ¬ fits)
     ∧ ((create env req db).2 = Routes.BadRequest "Invalid menu code"
        ↔ fits ∧ MenuCode.findOne (codeOf req) (Routes.menuCodes db) = None)
     ∧ ((create env req db).2 = Routes.BadRequest "Menu code has expired"
        ↔ fits
          ∧ ∃ i codeDoc,
              MenuCode.findOne (codeOf req) (Routes.menuCodes db)
              = Some (i, codeDoc)
              ∧ MenuCode.expiresAt codeDoc < Routes.now env)).
Proof.
  split.
  - intros msg. unfold Routes.createOrder.
    destruct (Routes.validBody (Routes.body req)); simpl.
    2: { intros [= <-]. split; [done|]. repeat constructor. }
    destruct (MenuCode.findOne _ _) as [[i codeDoc]|]; simpl.
    2: { intros [= <-]. split; [done|]. repeat constructor. }
    destruct (MenuCode.expiresAt codeDoc <? Routes.now env); simpl.
    { intros [= <-]. split; [done|]. repeat constructor. }
    destruct (Routes.loyalty _ _ _ _) as [[users' pending] earned].
    by destruct (Order.save _ _ _) as [orders' [saved|e]].
  - intros Hcode Hnote fits.
    pose proof (validBody_ascii (Routes.body req) Hcode Hnote) as Hvalid.
    fold fits in Hvalid.
    unfold Routes.createOrder.
    destruct (Routes.validBody (Routes.body req)); simpl.
    2: { assert (¬ fits) as Hno by (intros Hf; by apply Hvalid in Hf).
         split_and!; try done; split; try done; by intros [? _]. }
    assert fits as Hyes by by apply Hvalid.
    destruct (MenuCode.findOne _ _) as [[i codeDoc]|]; simpl.
    2: { split_and!; split; try done. by intros (_ & ? & ? & ? & _). }
    destruct (MenuCode.expiresAt codeDoc <? Routes.now env) eqn:Hexp; simpl.
    { apply Z.ltb_lt in Hexp.
      split_and!; split; try done; try by intros [_ ?].
      intros _. eauto. }
    apply Z.ltb_ge in Hexp.
    destruct (Routes.loyalty _ _ _ _) as [[users' pending] earned].
    destruct (Order.save _ _ _) as [orders' [saved|e]]; simpl;
      (split_and!; split; try done; try (by intros [_ ?]));
      intros (_ & ? & ? & [= <- <-] & ?); lia.
Qed.

End Stored.

(** ** Runs of the handlers on the sample store, continued *)
Section MoreRuns.

Local Abbreviation run :=
  (Routes.createOrder User.addLoyaltyStamp Routes.expireCode_missing).

(** After the guest's order the two customer codes are distinct; with
    draws that repeat the code of the stored order nothing is created. *)
Lemma tracking_codes_stay_unique_sample :
  NoDup (Order.customerCode
           <$> Routes.orders (run Sample.env Sample.guest Sample.db).1)
  ∧ isCreated (run Sample.envRepeating Sample.guest Sample.db).2 = false.
Proof.
  split.
  - apply (tracking_codes_stay_unique User.addLoyaltyStamp
             Routes.expireCode_missing Sample.env Sample.guest Sample.db).
    simpl. apply NoDup_singleton.
  - apply (proj2 (proj2 (tracking_codes_stay_unique User.addLoyaltyStamp
                           Routes.expireCode_missing Sample.envRepeating
                           Sample.guest Sample.db
                           ltac:(simpl; apply NoDup_singleton)))
             Sample.served).
    + simpl. repeat constructor.
    + reflexivity.
Defined.

(** The guest's order carries the stored code ABCDE and the price 80. *)
Lemma created_order_contents_sample :
  ∃ i codeDoc,
    MenuCode.findOne (toUpperCase "abcde") Sample.menuCodes = Some (i, codeDoc)
    ∧ Order.menuCode Sample.guestOrder = MenuCode.code codeDoc
    ∧ Order.pricing Sample.guestOrder
      = Order.mkPricing 60 (Order.sizePrices (MenuCode.cupSize codeDoc))
          (10 * Z.of_nat (length (Order.toppings Sample.guestOrder)))
          (Some (if false then 0
                 else 60 + Order.sizePrices (MenuCode.cupSize codeDoc)
                      + 10 * Z.of_nat (length (Order.toppings Sample.guestOrder)))).
Proof.
  destruct (created_order_contents User.addLoyaltyStamp
              Routes.expireCode_missing Sample.env Sample.guest Sample.db
              Sample.dbAfterGuest "Order created successfully"%string
              Sample.guestOrder "#K3F9A"%string false)
    as (i & codeDoc & Hfind & Hcode & _ & _ & _ & _ & _ & _ & _ & _ & _ & _
        & Hprice).
  - vm_compute. reflexivity.
  - exists i, codeDoc. split_and!; [exact Hfind|exact Hcode|exact Hprice].
Defined.

(** The member asks for Durian: 500, no order, and the tenth stamp is on
    the card all the same. *)
Lemma refused_order_keeps_stamp_sample :
  ∃ paths pts,
    run Sample.env Sample.memberDurian Sample.db
    = (Routes.mkDb Sample.stocks Sample.menuCodes [Sample.served]
         (<[0%nat:=User.record 2 pts (User.addLoyaltyStamp Sample.regular).1]>
            [Sample.regular]),
       Routes.ServerError "Failed to save order" (ValidationError paths)).
Proof.
  apply (refused_order_keeps_stamp User.addLoyaltyStamp
           Routes.expireCode_missing Sample.env Sample.memberDurian Sample.db
           0%nat Sample.fresh 7 0%nat Sample.regular).
  - reflexivity.
  - reflexivity.
  - simpl. lia.
  - reflexivity.
  - reflexivity.
  - unfold Order.flavorEnum. simpl.
    rewrite !elem_of_cons, elem_of_nil. intros [?|[?|[?|[?|[?|[]]]]]]; done.
Defined.

(** An unknown code is answered 400 'Invalid menu code' and changes
    nothing; a code of three characters fails the validators. *)
Lemma createOrder_bad_requests_sample :
  (run Sample.env
       (Routes.mkRequest None (Sample.selection "ZZZZZ" None)) Sample.db).1
  = Sample.db
  ∧ (run Sample.env
         (Routes.mkRequest None (Sample.selection "ZZZZZ" None)) Sample.db).2
    = Routes.BadRequest "Invalid menu code"
  ∧ (run Sample.env
         (Routes.mkRequest None (Sample.selection "abc" None)) Sample.db).2
    = Routes.BadRequest "Validation failed".
Proof.
  split_and!.
  - apply (proj1 (createOrder_bad_requests User.addLoyaltyStamp
                    Routes.expireCode_missing Sample.env
                    (Routes.mkRequest None (Sample.selection "ZZZZZ" None))
                    Sample.db) "Invalid menu code"%string).
    reflexivity.
  - apply (proj1 (proj2 (proj2 (createOrder_bad_requests User.addLoyaltyStamp
                    Routes.expireCode_missing Sample.env
                    (Routes.mkRequest None (Sample.selection "ZZZZZ" None))
                    Sample.db) eq_refl ltac:(by intros ? [=])))).
    split; [|reflexivity]. split; [reflexivity|]. by intros ? [=].
  - apply (proj1 (proj2 (createOrder_bad_requests User.addLoyaltyStamp
                    Routes.expireCode_missing Sample.env
                    (Routes.mkRequest None (Sample.selection "abc" None))
                    Sample.db) eq_refl ltac:(by intros ? [=]))).
    simpl. intros [Hfive _]. discriminate Hfive.
Defined.

End MoreRuns.

(** ** The status handler: what it leaves alone *)
Section StatusFrames.

(** X20.  The status handler answers 404 for an unknown id and then
    changes nothing.  In every run it leaves stock, codes and users as
    they were and keeps the number of orders; an order with another id is
    stored as before.  The order it updates keeps its price, payment
    status, codes, flavor and toppings and the time it was ordered; a
    timestamp that was set stays set, and Pending and Cancelled stamp
    nothing. *)
Theorem putStatus_frames now gen id s db :
  (Order.findById id (Routes.orders db) = None →
   Routes.putStatus now gen id s db = (db, Routes.NotFound "Order not found"))
  ∧ Routes.stocks (Routes.putStatus now gen id s db).1 = Routes.stocks db
  ∧ Routes.menuCodes (Routes.putStatus now gen id s db).1 = Routes.menuCodes db
  ∧ Routes.users (Routes.putStatus now gen id s db).1 = Routes.users db
  ∧ length (Routes.orders (Routes.putStatus now gen id s db).1)
    = length (Routes.orders db)
  ∧ (∀ j o, Routes.orders db !! j = Some o → Order._id o ≠ id →
       Routes.orders (Routes.putStatus now gen id s db).1 !! j = Some o)
  ∧ (∀ o, let o' := Order.assignStatus now s o in
       Order.pricing o' = Order.pricing o
       ∧ Order.paymentStatus o' = Order.paymentStatus o
       ∧ Order.customerCode o' = Order.customerCode o
       ∧ Order.menuCode o' = Order.menuCode o
       ∧ Order.shavedIce o' = Order.shavedIce o
       ∧ Order.toppings o' = Order.toppings o
       ∧ Order.ordered (Order.timestamps o') = Order.ordered (Order.timestamps o)
       ∧ (is_Some (Order.prepared (Order.timestamps o)) →
          is_Some (Order.prepared (Order.timestamps o')))
       ∧ (is_Some (Order.ready (Order.timestamps o)) →
          is_Some (Order.ready (Order.timestamps o')))
       ∧ (is_Some (Order.completed (Order.timestamps o)) →
          is_Some (Order.completed (Order.timestamps o')))
       ∧ (s = Order.Pending ∨ s = Order.Cancelled →
          Order.timestamps o' = Order.timestamps o)).
Proof.
  destruct (putStatus_store now gen id s db) as (Hst & Hmc & Hus & Hord).
  split_and!; try done.
  - intros Hnone. unfold Routes.putStatus. by rewrite Hnone.
  - destruct Hord as [->|(i & o & _ & ->)]; [done|apply length_insert].
  - intros j o0 Hj Hne.
    destruct Hord as [->|(i & o & Hfind & ->)]; [done|].
    pose proof (find_position _ _ _ _ Hfind) as [Hi Hid].
    rewrite list_lookup_insert_ne; [done|].
    intros <-. rewrite Hi in Hj. by injection Hj as <-.
  - intros o0. by destruct s, o0 as [? ? ? ? ? ? ? ? ? ? ? ? [? ? ? ?] ?];
      simpl; split_and!; try done; try (by intros [?|?]); eauto.
Qed.

(** Order 9 is unknown; order 1, served, is moved back to Pending and
    keeps its three stamps. *)
Lemma putStatus_frames_sample :
  Routes.putStatus 1000 "ORDXYZ123" 9 Order.Ready Sample.db
  = (Sample.db, Routes.NotFound "Order not found")
  ∧ Order.timestamps (Order.assignStatus 1000 Order.Pending Sample.served)
    = Order.timestamps Sample.served.
Proof.
  split.
  - apply (proj1 (putStatus_frames 1000 "ORDXYZ123" 9 Order.Ready Sample.db)).
    reflexivity.
  - apply (proj2 (proj2 (proj2 (proj2 (proj2 (proj2
             (putStatus_frames 1000 "ORDXYZ123" 1 Order.Pending Sample.db))))))
             Sample.served).
    by left.
Defined.

End StatusFrames.

(** ** The menu page *)
Section Page.
Implicit Types (prev : list MenuPage.MenuItem) (topping : MenuPage.MenuItem).

Lemma upper_ascii_twice ch : upper_ascii (upper_ascii ch) = upper_ascii ch.
Proof. by destruct ch as [[] [] [] [] [] [] [] []]. Qed.

Lemma toUpperCase_twice s : toUpperCase (toUpperCase s) = toUpperCase s.
Proof.
  induction s as [|ch s IH]; simpl; [done|].
  by rewrite upper_ascii_twice, IH.
Qed.

Lemma find_topping_none topping prev :
  list_find (λ t, MenuPage.name t = MenuPage.name topping) prev = None
  ↔ MenuPage.name topping ∉ MenuPage.name <$> prev.
Proof.
  rewrite find_none, Exists_exists, list_elem_of_fmap. split.
  - intros Hno (t & Hname & Hin). apply Hno. eauto.
  - intros Hno (t & Hin & Hname). apply Hno. eauto.
Qed.

Lemma filter_other_names nm prev :
  nm ∉ MenuPage.name <$> prev →
  filter (λ t, MenuPage.name t ≠ nm) prev = prev.
Proof.
  induction prev as [|t prev IH]; [done|]. rewrite fmap_cons, not_elem_of_cons.
  intros [Hne Hrest]. rewrite filter_cons_True by done. by rewrite IH.
Qed.

Lemma filter_names_NoDup (P : MenuPage.MenuItem → Prop)
    `{!∀ t, Decision (P t)} prev :
  NoDup (MenuPage.name <$> prev) → NoDup (MenuPage.name <$> filter P prev).
Proof.
  induction prev as [|t prev IH]; [done|].
  rewrite fmap_cons, NoDup_cons. intros [Hnew Hrest].
  rewrite filter_cons. case_decide; [|by apply IH].
  rewrite fmap_cons, NoDup_cons. split; [|by apply IH].
  rewrite list_elem_of_fmap in *. intros (t' & Hname & Hin).
  apply Hnew. exists t'. split; [done|].
  by apply list_elem_of_filter in Hin as [_ ?].
Qed.

(** X21.  Toggling a topping keeps the selection within three toppings
    and free of repeated names.  An unavailable topping changes nothing.
    An available topping that is selected is removed; one that is not
    selected is added at the end when fewer than three are selected, and
    toggling it once more gives back the selection as it was. *)
Theorem toggleTopping_keeps_selection topping prev :
  ((length prev ≤ 3)%nat →
   (length (MenuPage.toggleTopping topping prev).1 ≤ 3)%nat)
  ∧ (NoDup (MenuPage.name <$> prev) →
     NoDup (MenuPage.name <$> (MenuPage.toggleTopping topping prev).1))
  ∧ (MenuPage.unavailable topping = true →
     (MenuPage.toggleTopping topping prev).1 = prev)
  ∧ (MenuPage.unavailable topping = false →
     MenuPage.name topping ∈ MenuPage.name <$> prev →
     MenuPage.name topping
       ∉ MenuPage.name <$> (MenuPage.toggleTopping topping prev).1)
  ∧ (MenuPage.unavailable topping = false →
     MenuPage.name topping ∉ MenuPage.name <$> prev →
     (length prev < 3)%nat →
     MenuPage.toggleTopping topping prev = (prev ++ [topping], None)
     ∧ (MenuPage.toggleTopping topping
          (MenuPage.toggleTopping topping prev).1).1 = prev).
Proof.
  unfold MenuPage.toggleTopping.
  destruct (MenuPage.unavailable topping) eqn:Hav; cbn [fst].
  { split_and!; done. }
  destruct (list_find _ prev) as [[i t]|] eqn:Hfind; cbn [fst].
  - assert (MenuPage.name topping ∈ MenuPage.name <$> prev) as Hin.
    { apply find_position in Hfind as [Hi Hname].
      apply list_elem_of_fmap. exists t. split; [done|].
      by eapply list_elem_of_lookup_2. }
    split_and!; try done.
    + intros Hlen. etrans; [apply length_filter|done].
    + by apply filter_names_NoDup.
    + intros _ _. rewrite list_elem_of_fmap. intros (t' & Hname & Hin').
      by apply list_elem_of_filter in Hin' as [? _].
  - apply find_topping_none in Hfind.
    destruct (3 <=? length prev)%nat eqn:Hfull; cbn [fst].
    + apply Nat.leb_le in Hfull. split_and!; [done..|]. intros _ _ ?. lia.
    + apply Nat.leb_gt in Hfull. split_and!; try done.
      * intros _. rewrite length_app. simpl. lia.
      * intros Hdup. rewrite fmap_app. apply NoDup_app.
        split_and!; [done| |apply NoDup_singleton].
        intros x Hx. simpl. rewrite list_elem_of_singleton. by intros ->.
      * intros _ _ _. split; [done|].
        assert (is_Some (list_find (λ t, MenuPage.name t = MenuPage.name topping)
                                   (prev ++ [topping]))) as [[j t] ->].
        { apply find_is_Some, Exists_app. right. by constructor. }
        cbn [fst]. rewrite filter_app, filter_other_names by done.
        rewrite filter_cons_False by (by intros ?). by rewrite app_nil_r.
Qed.

(** With Apple, Cherry and Blueberry selected a fourth topping is not
    taken; Cherry is added to Apple, and taken away again. *)
Lemma toggleTopping_keeps_selection_sample :
  (length (MenuPage.toggleTopping Sample.raspberry
             [Sample.apple; Sample.cherry; Sample.blueberry]).1 ≤ 3)%nat
  ∧ MenuPage.toggleTopping Sample.cherry [Sample.apple]
    = ([Sample.apple; Sample.cherry], None)
  ∧ (MenuPage.toggleTopping Sample.cherry
       (MenuPage.toggleTopping Sample.cherry [Sample.apple]).1).1
    = [Sample.apple].
Proof.
  split.
  - apply (proj1 (toggleTopping_keeps_selection Sample.raspberry
                    [Sample.apple; Sample.cherry; Sample.blueberry])).
    simpl. lia.
  - apply (proj2 (proj2 (proj2 (proj2
             (toggleTopping_keeps_selection Sample.cherry [Sample.apple]))))).
    + reflexivity.
    + simpl. rewrite list_elem_of_singleton. discriminate.
    + simpl. lia.
Defined.

(** X22.  The price the menu page shows is the price the back end stores:
    when the validate handler has accepted the code with a cup size, and
    the create handler answers 201 to the order the page builds from that
    code and the selected flavor and toppings, the stored total is the
    page's total for that size and those toppings, unless the customer
    earned a free drink, when the stored total is 0. *)
Theorem shown_price_is_stored_price stampOf expire now0 env req db db' code
    flavor selected note size r mx msg o cc earned :
  MenuCodeRoutes.validate now0 (toUpperCase code) (Routes.menuCodes db)
  = MenuCodeRoutes.Accepted size r mx →
  Routes.body req = MenuPage.orderData code flavor selected note →
  Routes.createOrder stampOf expire env req db
  = (db', Routes.Created msg o cc earned) →
  Order.total (Order.pricing o)
  = Some (if earned then 0
          else MenuPage.calculateTotal (MenuPage.cupSizeText size) selected)
  ∧ Order.cupSize o = size
  ∧ length (Order.toppings o) = length selected.
Proof.
  intros Hvalid Hbody Hrun.
  destruct (created_order_fields stampOf expire env req db db' msg o cc earned
              Hrun)
    as (i & codeDoc & Hfind & _ & _ & _ & _ & _ & _ & _ & Htops & _ & _ & _
        & Hcup & Hprice).
  rewrite Hbody in Hfind, Htops. simpl in Hfind, Htops.
  rewrite toUpperCase_twice in Hfind.
  unfold MenuCodeRoutes.validate in Hvalid.
  rewrite toUpperCase_twice, Hfind in Hvalid.
  destruct (MenuCode.canBeUsed now0 codeDoc); [done|].
  injection Hvalid as <- _ _.
  assert (length (Order.toppings o) = length selected) as Hlen.
  { by rewrite Htops, length_map. }
  split_and!; [|done|done].
  rewrite Hprice. simpl. f_equal. destruct earned; [done|].
  unfold MenuPage.calculateTotal. rewrite Hlen, num_or_zero.
  destruct (MenuCode.cupSize codeDoc); simpl; lia.
Qed.

(** The guest picks Strawberry with one topping on the code ABCDE, of
    size M: the page shows 80 and 80 is stored. *)
Lemma shown_price_is_stored_price_sample :
  Order.total (Order.pricing Sample.pageOrder)
  = Some (if false then 0
          else MenuPage.calculateTotal (MenuPage.cupSizeText cupM)
                 [Sample.raspberry])
  ∧ Order.cupSize Sample.pageOrder = cupM
  ∧ length (Order.toppings Sample.pageOrder) = length [Sample.raspberry].
Proof.
  apply (shown_price_is_stored_price User.addLoyaltyStamp
           Routes.expireCode_missing 900 Sample.env
           (Routes.mkRequest None
              (MenuPage.orderData "abcde" Sample.strawberryIce
                                  [Sample.raspberry] ""))
           Sample.db
           (Routes.mkDb Sample.stocks Sample.menuCodes
              [Sample.served; Sample.pageOrder] [Sample.regular])
           "abcde" Sample.strawberryIce [Sample.raspberry] "" cupM 5 5
           "Order created successfully" Sample.pageOrder "#K3F9A" false).
  - reflexivity.
  - reflexivity.
  - vm_compute. reflexivity.
Defined.

End Page.

(** ** Restocking one item *)
Section Restock.
Implicit Types (col : list Stock.Doc) (s d : Stock.Doc).

(** X23.  The restock handler tops an item up by its reorder level, it
    does not fill it to that level: the answer reports the old quantity,
    the old quantity plus the reorder level, and the reorder level as the
    amount added; only that item is written; and a second restock adds
    the reorder level once more.  An unknown id is answered 404 and
    changes nothing. *)
Theorem restock_tops_up now now' id col :
  (col !! id = None →
   StockRoutes.restock now id col
   = (col, StockRoutes.NotFound "Stock item not found"))
  ∧ (∀ s, col !! id = Some s →
       0 ≤ Stock.quantity s → 0 ≤ Stock.reorderLevel s →
       ∃ d, StockRoutes.restock now id col
            = (<[id:=d]> col,
               StockRoutes.Restocked d (Stock.quantity s)
                 (Stock.quantity s + Stock.reorderLevel s)
                 (Stock.reorderLevel s))
            ∧ Stock.quantity d = Stock.quantity s + Stock.reorderLevel s
            ∧ Stock.reorderLevel d = Stock.reorderLevel s
            ∧ Stock.lastRestocked d = now
            ∧ (∀ j, j ≠ id → <[id:=d]> col !! j = col !! j)
            ∧ Stock.quantity <$>
                (StockRoutes.restock now' id (<[id:=d]> col)).1 !! id
              = Some (Stock.quantity s + 2 * Stock.reorderLevel s)).
Proof.
  unfold StockRoutes.restock, StockRoutes.findById, Stock.save. split.
  - by intros ->.
  - intros s Hs Hq Hlevel.
    assert (id < length col)%nat as Hlt by by eapply lookup_lt_Some.
    rewrite Hs. simpl. rewrite (proj2 (Z.ltb_ge _ _)) by lia.
    eexists. split_and!; try reflexivity.
    + intros j Hj. by rewrite list_lookup_insert_ne.
    + rewrite list_lookup_insert_eq by done. simpl.
      rewrite (proj2 (Z.ltb_ge _ _)) by lia. simpl.
      rewrite list_lookup_insert_eq by (by rewrite length_insert).
      simpl. f_equal. lia.
Qed.

(** Mango, at position 1 with 1 and reorder level 20: 21, then 41. *)
Lemma restock_tops_up_sample :
  ∃ d, StockRoutes.restock 1000 1 Sample.stocks
       = (<[1%nat:=d]> Sample.stocks, StockRoutes.Restocked d 1 (1 + 20) 20)
       ∧ Stock.quantity d = 1 + 20
       ∧ Stock.reorderLevel d = 20
       ∧ Stock.lastRestocked d = 1000
       ∧ (∀ j, j ≠ 1%nat → <[1%nat:=d]> Sample.stocks !! j = Sample.stocks !! j)
       ∧ Stock.quantity <$>
           (StockRoutes.restock 1001 1 (<[1%nat:=d]> Sample.stocks)).1 !! 1%nat
         = Some (1 + 2 * 20).
Proof.
  apply (proj2 (restock_tops_up 1000 1001 1 Sample.stocks)
           (Stock.mkDoc Stock.topping "Mango" 1 "cups" 20 true 0)).
  - reflexivity.
  - simpl. lia.
  - simpl. lia.
Defined.

End Restock.
